(** * OpenAI-Agents-SDK concepts with Groq: a shallow embedding

    The repository is a set of Python scripts written against the OpenAI
    Agents SDK.  This development embeds the code that the scripts themselves
    contain (the tool bodies, the configuration module, the payload
    extraction and validation of the structured-output script, the guardrail
    function and the agent declarations) and proves the properties the
    specification states about them.

    Python values are embedded as follows: a [str] is the list of its Unicode
    code points, a [float] is an IEEE 754 binary64 number (Rocq's primitive
    floats), a [dict] is a [gmap], an [int] is a [Z].  Effects (standard
    output, the process environment, the SDK's process-wide registry,
    exceptions) are threaded through the monad [Py]. *)

From Stdlib Require Import ZArith NArith List String Ascii Floats Lia Bool Relations.
From Stdlib Require Import DecimalString.
From stdpp Require Import gmap.
Import ListNotations.

Set Warnings "-inexact-float,-register-all".

(* ===================================================================== *)
(** ** Python strings *)
(* ===================================================================== *)

Module PyStr.

(** A Python [str]: the sequence of its code points. *)
Definition char := N.
Definition str := list char.

(** String literals of the source files are UTF-8; [utf8_decode] turns the
    bytes of a literal into code points. *)
Fixpoint utf8_decode (bs : list N) : str :=
  match bs with
  | [] => []
  | b :: r =>
    if (b <? 0x80)%N then b :: utf8_decode r
    else if (b <? 0xE0)%N then
      match r with
      | b1 :: r' => ((b - 0xC0) * 0x40 + (b1 - 0x80))%N :: utf8_decode r'
      | _ => []
      end
    else if (b <? 0xF0)%N then
      match r with
      | b1 :: b2 :: r' =>
        ((b - 0xE0) * 0x1000 + (b1 - 0x80) * 0x40 + (b2 - 0x80))%N :: utf8_decode r'
      | _ => []
      end
    else
      match r with
      | b1 :: b2 :: b3 :: r' =>
        ((b - 0xF0) * 0x40000 + (b1 - 0x80) * 0x1000 + (b2 - 0x80) * 0x40 + (b3 - 0x80))%N
          :: utf8_decode r'
      | _ => []
      end
  end.

Definition py (s : string) : str :=
  utf8_decode (map N_of_ascii (list_ascii_of_string s)).
Arguments py : simpl never.

(** [str.isspace] of one code point (CPython's [_PyUnicode_IsWhitespace]). *)
Definition isspace (c : char) : bool :=
  ((0x09 <=? c) && (c <=? 0x0D) || (0x1C <=? c) && (c <=? 0x20)
   || (c =? 0x85) || (c =? 0xA0) || (c =? 0x1680)
   || (0x2000 <=? c) && (c <=? 0x200A)
   || (c =? 0x2028) || (c =? 0x2029) || (c =? 0x202F) || (c =? 0x205F)
   || (c =? 0x3000))%N.

(** [s.strip()]: leading and trailing white space removed. *)
Fixpoint lstrip (s : str) : str :=
  match s with
  | [] => []
  | c :: r => if isspace c then lstrip r else s
  end.

Definition rstrip (s : str) : str := rev (lstrip (rev s)).

Definition strip (s : str) : str := rstrip (lstrip s).

(** [s.lower()].  CPython lowers a string of ASCII code points character by
    character; any other string goes through the Unicode case tables, which
    are a parameter here. *)
Definition is_ascii (c : char) : bool := (c <? 0x80)%N.

Definition ascii_lower (c : char) : char :=
  if ((0x41 <=? c) && (c <=? 0x5A))%N then (c + 0x20)%N else c.

Definition lower (unicode_lower : str -> str) (s : str) : str :=
  if forallb is_ascii s then map ascii_lower s else unicode_lower s.

(** [s.find(c)] and [s.rfind(c)] for a one-character needle: the index of
    the first (last) occurrence, [-1] when there is none. *)
Fixpoint find_from (c : char) (s : str) (i : Z) : Z :=
  match s with
  | [] => (-1)%Z
  | x :: r => if (x =? c)%N then i else find_from c r (i + 1)%Z
  end.

Definition find (c : char) (s : str) : Z := find_from c s 0.

Fixpoint rfind_from (c : char) (s : str) (i last : Z) : Z :=
  match s with
  | [] => last
  | x :: r => rfind_from c r (i + 1)%Z (if (x =? c)%N then i else last)
  end.

Definition rfind (c : char) (s : str) : Z := rfind_from c s 0 (-1).

(** [s[a:b]] with Python's treatment of negative and out-of-range bounds. *)
Definition clamp_index (len i : Z) : Z :=
  if (i <? 0)%Z then Z.max 0 (i + len) else Z.min i len.

Definition slice (s : str) (a b : Z) : str :=
  let len := Z.of_nat (length s) in
  let lo := clamp_index len a in
  let hi := clamp_index len b in
  firstn (Z.to_nat (hi - lo)) (skipn (Z.to_nat lo) s).

(** [sep.join(l)]. *)
Fixpoint join (sep : str) (l : list str) : str :=
  match l with
  | [] => []
  | [x] => x
  | x :: r => x ++ sep ++ join sep r
  end.

End PyStr.

Import PyStr.

(* ===================================================================== *)
(** ** Effects: the interpreter state and the monad [Py] *)
(* ===================================================================== *)

(** The client object built by [AsyncOpenAI(api_key=..., base_url=...)]. *)
Record AsyncOpenAI := { api_key : str; base_url : str }.

(** What the code can observe or change outside its own locals: the process
    environment, standard output and the SDK's process-wide settings. *)
Record World := {
  environ : gmap str str;
  stdout : str;
  default_openai_client : option AsyncOpenAI;
  default_openai_api : option str;
  tracing_disabled : option bool
}.

Inductive Violation :=
| InvalidJSON
| NotAnObject
| MissingField (field : str)
| TypeMismatch (field : str).

Inductive PyExc :=
| EnvironmentError (msg : str)
| ZeroDivisionError (msg : str)
| OverflowError (msg : str)
| ValidationError (errors : list Violation).

Inductive Outcome (A : Type) :=
| Return (a : A)
| Raise (e : PyExc).
Arguments Return {A} a.
Arguments Raise {A} e.

Definition Py (A : Type) : Type := World -> Outcome A * World.

Definition ret {A} (a : A) : Py A := fun w => (Return a, w).

Definition raise {A} (e : PyExc) : Py A := fun w => (Raise e, w).

Definition bind {A B} (m : Py A) (k : A -> Py B) : Py B :=
  fun w =>
    match m w with
    | (Return a, w') => k a w'
    | (Raise e, w') => (Raise e, w')
    end.

Notation "'let*' x ':=' m 'in' k" := (bind m (fun x => k))
  (at level 10, x pattern, m at level 100, k at level 200).

(** [try: body except Exception as e: handler e]. *)
Definition try_except {A} (body : Py A) (handler : PyExc -> Py A) : Py A :=
  fun w =>
    match body w with
    | (Return a, w') => (Return a, w')
    | (Raise e, w') => handler e w'
    end.

(** The state after [s] has been written to standard output. *)
Definition emit (s : str) (w : World) : World :=
  {| environ := environ w;
     stdout := stdout w ++ s;
     default_openai_client := default_openai_client w;
     default_openai_api := default_openai_api w;
     tracing_disabled := tracing_disabled w |}.

Definition write (s : str) : Py unit := fun w => (Return tt, emit s w).

(** [print(s)]. *)
Definition print (s : str) : Py unit := write (s ++ [0x0A%N]).

Definition os_getenv (name : str) : Py (option str) :=
  fun w => (Return (environ w !! name), w).

Definition world0 : World :=
  {| environ := ∅; stdout := []; default_openai_client := None;
     default_openai_api := None; tracing_disabled := None |}.

(* ===================================================================== *)
(** ** The parts of the Python runtime the code calls *)
(* ===================================================================== *)

(** Builtins whose tables and algorithms live in the interpreter: the
    Unicode case mapping behind [str.lower], [round(x, ndigits)] and the
    text a float takes inside an f-string. *)
Class PyRuntime := {
  unicode_lower : str -> str;
  round_ndigits : float -> Z -> float;
  float_repr : float -> str
}.

(** [x ** 2] on floats, after CPython's [float_pow]: NaN and infinities are
    answered directly, an overflow of the finite case raises
    [OverflowError], an underflow gives zero. *)
Definition float_pow_2 (iv : float) : Py float :=
  if PrimFloat.is_nan iv then ret iv
  else if PrimFloat.is_infinity iv then ret (PrimFloat.abs iv)
  else if (iv =? 0)%float then ret 0%float
  else
    let iv := PrimFloat.abs iv in
    if (iv =? 1)%float then ret 1%float
    else
      let ix := (iv * iv)%float in
      if PrimFloat.is_infinity ix
      then raise (OverflowError (py "(34, 'Numerical result out of range')"))
      else ret ix.

(** [a / b] on floats: a zero divisor raises. *)
Definition float_truediv (a b : float) : Py float :=
  if (b =? 0)%float then raise (ZeroDivisionError (py "float division by zero"))
  else ret (a / b)%float.

(* ===================================================================== *)
(** ** src/3_tools.py and src/2_tools.py: the tools *)
(* ===================================================================== *)

Module Tools.

Definition weather_reports : list (str * str) :=
  [ (py "karachi",   py "🌤  29°C, Partly Cloudy, Humidity: 72%");
    (py "lahore",    py "☀️  24°C, Sunny, Humidity: 45%");
    (py "islamabad", py "🌧  18°C, Rainy, Humidity: 88%");
    (py "london",    py "🌥  12°C, Overcast, Humidity: 80%");
    (py "new york",  py "❄️   3°C, Snowy, Humidity: 60%") ].

Definition fake_weather_data : gmap str str := list_to_map weather_reports.

Definition not_available (city : str) : str :=
  py "Weather data for '" ++ city ++ py "' not available.".

Definition get_weather `{PyRuntime} (city : str) : Py str :=
  let key := strip (lower unicode_lower city) in
  ret (default (not_available city) (fake_weather_data !! key)).

Definition calculate_bmi `{PyRuntime} (weight_kg height_m : float) : Py str :=
  if (height_m <=? 0)%float then
    ret (py "Error: Height must be greater than zero.")
  else
    let* sq := float_pow_2 height_m in
    let* bmi := float_truediv weight_kg sq in
    let bmi := round_ndigits bmi 2 in
    let category :=
      if (bmi <? 18.5)%float then py "Underweight"
      else if (bmi <? 25)%float then py "Normal weight ✅"
      else if (bmi <? 30)%float then py "Overweight ⚠️ "
      else py "Obese ❗" in
    ret (py "BMI = " ++ float_repr bmi ++ py "  →  " ++ category).

End Tools.

(* ===================================================================== *)
(** ** src/groq_setup.py: the shared configuration module *)
(* ===================================================================== *)

Module GroqSetup.

Definition GROQ_BASE_URL : str := py "https://api.groq.com/openai/v1".

Definition MODEL : str := py "llama-3.3-70b-versatile".

Definition key_not_found : str :=
  [0x0A%N] ++ py "[ERROR] GROQ_API_KEY not found!" ++ [0x0A%N]
  ++ py "Please open the .env file and paste your Groq API key." ++ [0x0A%N]
  ++ py "Get one free at: https://console.groq.com" ++ [0x0A%N].

(** [load_dotenv()] of python-dotenv: how it rewrites the process
    environment from the [.env] file is its own business, so the rewriting
    is a parameter [dotenv]. *)
Definition load_dotenv (dotenv : gmap str str -> gmap str str) : Py unit :=
  fun w =>
    (Return tt,
     {| environ := dotenv (environ w);
        stdout := stdout w;
        default_openai_client := default_openai_client w;
        default_openai_api := default_openai_api w;
        tracing_disabled := tracing_disabled w |}).

(** The three SDK setters store their argument in the process-wide
    registry. *)
Definition set_default_openai_client (client : AsyncOpenAI) : Py unit :=
  fun w =>
    (Return tt,
     {| environ := environ w;
        stdout := stdout w;
        default_openai_client := Some client;
        default_openai_api := default_openai_api w;
        tracing_disabled := tracing_disabled w |}).

Definition set_default_openai_api (api : str) : Py unit :=
  fun w =>
    (Return tt,
     {| environ := environ w;
        stdout := stdout w;
        default_openai_client := default_openai_client w;
        default_openai_api := Some api;
        tracing_disabled := tracing_disabled w |}).

Definition set_tracing_disabled (disabled : bool) : Py unit :=
  fun w =>
    (Return tt,
     {| environ := environ w;
        stdout := stdout w;
        default_openai_client := default_openai_client w;
        default_openai_api := default_openai_api w;
        tracing_disabled := Some disabled |}).

(** Python's truth value of [os.getenv(...)]: [None] and the empty string
    are false. *)
Definition truthy (v : option str) : bool :=
  match v with
  | None => false
  | Some [] => false
  | Some (_ :: _) => true
  end.

(** The names the module binds when its import succeeds. *)
Record Namespace := {
  GROQ_API_KEY : str;
  groq_client : AsyncOpenAI
}.

(** The module body, top to bottom: what [import groq_setup] executes. *)
Definition import_groq_setup (dotenv : gmap str str -> gmap str str) : Py Namespace :=
  let* _ := load_dotenv dotenv in
  let* GROQ_API_KEY := os_getenv (py "GROQ_API_KEY") in
  if negb (truthy GROQ_API_KEY) then raise (EnvironmentError key_not_found)
  else
    let key := default [] GROQ_API_KEY in
    let groq_client := {| api_key := key; base_url := GROQ_BASE_URL |} in
    let* _ := set_default_openai_client groq_client in
    let* _ := set_default_openai_api (py "chat_completions") in
    let* _ := set_tracing_disabled true in
    let* _ := print (py "[groq_setup] ✅ Groq client configured | Model: " ++ MODEL) in
    ret {| GROQ_API_KEY := key; groq_client := groq_client |}.

End GroqSetup.

(* ===================================================================== *)
(** ** The agents the scripts declare *)
(* ===================================================================== *)

Module Agents.

(** One constructor per [Agent(...)] object of the repository, named after
    the Python variable that holds it. *)
Inductive AgentRef :=
| explainer_agent        (* 1_agent.py *)
| joke_agent             (* 2_runner.py *)
| weather_assistant      (* 2_tools.py *)
| health_assistant       (* 3_tools.py *)
| movie_extractor        (* 4_structured_output.py *)
| english_agent | urdu_agent | router_agent                   (* 4_handoffs.py *)
| career_agent | finance_agent | tech_agent | triage_agent    (* 6_triage_agent.py *)
| guardrail_classifier | study_assistant.                     (* 7_guardrails.py *)

Inductive ToolRef := tool_get_weather | tool_calculate_bmi.

Inductive GuardrailRef := guardrail_block_harmful_input.

Inductive SchemaRef := schema_OffTopicCheck.

(** The keyword arguments of an [Agent(...)] call that wire it to other
    objects; an argument the call leaves out has the SDK's default (no
    tools, no handoffs, no guardrails, plain-text output).  The
    instruction texts are prompts for the model and are not embedded. *)
Record Agent := {
  name : str;
  model : str;
  tools : list ToolRef;
  handoffs : list AgentRef;
  input_guardrails : list GuardrailRef;
  output_type : option SchemaRef
}.

Definition plain (n : str) : Agent :=
  {| name := n; model := GroqSetup.MODEL; tools := []; handoffs := [];
     input_guardrails := []; output_type := None |}.

Definition agent (a : AgentRef) : Agent :=
  match a with
  | explainer_agent => plain (py "Simple Explainer")
  | joke_agent => plain (py "Joke Teller")
  | weather_assistant =>
    {| name := py "Weather Assistant"; model := GroqSetup.MODEL;
       tools := [tool_get_weather]; handoffs := [];
       input_guardrails := []; output_type := None |}
  | health_assistant =>
    {| name := py "Health & Weather Assistant"; model := GroqSetup.MODEL;
       tools := [tool_get_weather; tool_calculate_bmi]; handoffs := [];
       input_guardrails := []; output_type := None |}
  | movie_extractor => plain (py "Movie Info Extractor")
  | english_agent => plain (py "English Specialist")
  | urdu_agent => plain (py "Urdu Specialist")
  | router_agent =>
    {| name := py "Language Router"; model := GroqSetup.MODEL;
       tools := []; handoffs := [english_agent; urdu_agent];
       input_guardrails := []; output_type := None |}
  | career_agent => plain (py "Career Advisor")
  | finance_agent => plain (py "Finance Advisor")
  | tech_agent => plain (py "Tech Support")
  | triage_agent =>
    {| name := py "Triage Agent"; model := GroqSetup.MODEL;
       tools := []; handoffs := [career_agent; finance_agent; tech_agent];
       input_guardrails := []; output_type := None |}
  | guardrail_classifier =>
    {| name := py "Input Safety Classifier"; model := GroqSetup.MODEL;
       tools := []; handoffs := [];
       input_guardrails := []; output_type := Some schema_OffTopicCheck |}
  | study_assistant =>
    {| name := py "Study Assistant"; model := GroqSetup.MODEL;
       tools := []; handoffs := [];
       input_guardrails := [guardrail_block_harmful_input]; output_type := None |}
  end.

(** [handoff a b]: the agent [a] lists [b] among its [handoffs]. *)
Definition handoff (a b : AgentRef) : Prop := In b (handoffs (agent a)).

(** A chain of handoffs: each agent of the list hands off to the next. *)
Fixpoint chain (l : list AgentRef) : Prop :=
  match l with
  | a :: ((b :: _) as r) => handoff a b /\ chain r
  | _ => True
  end.

(** The number of transfers along a chain. *)
Definition transfers (l : list AgentRef) : nat := pred (length l).

End Agents.

(* ===================================================================== *)
(** ** src/4_structured_output.py: the structured-output path *)
(* ===================================================================== *)

Module StructuredOutput.

(** The pydantic class [MovieInfo]: seven fields, none with a default. *)
Record MovieInfo := {
  title : str;
  director : str;
  year : Z;
  genre : list str;
  main_actors : list str;
  plot_summary : str;
  rating_out_of_10 : float
}.

(** A parsed JSON document.  An object keeps its members in document
    order. *)
Inductive JSON :=
| JNull
| JBool (b : bool)
| JInt (z : Z)
| JFloat (f : float)
| JStr (s : str)
| JArr (items : list JSON)
| JObj (members : list (str * JSON)).

(** What the script takes from pydantic: the JSON parser, the validators of
    the scalar annotations [str], [int] and [float], the text of an
    exception inside an f-string and [model_dump_json]. *)
Class Pydantic := {
  json_loads : str -> option JSON;
  validate_str : JSON -> option str;
  validate_int : JSON -> option Z;
  validate_float : JSON -> option float;
  str_of_exception : PyExc -> str;
  model_dump_json : MovieInfo -> Z -> str
}.

(** The value of a member of an object; a repeated key takes its last
    value. *)
Fixpoint member (key : str) (members : list (str * JSON)) : option JSON :=
  match members with
  | [] => None
  | (k, v) :: r =>
    match member key r with
    | Some v' => Some v'
    | None => if decide (k = key) then Some v else None
    end
  end.

(** The annotation [List[str]]: an array whose every item is a [str]. *)
Fixpoint validate_items `{Pydantic} (items : list JSON) : option (list str) :=
  match items with
  | [] => Some []
  | x :: r =>
    match validate_str x, validate_items r with
    | Some s, Some l => Some (s :: l)
    | _, _ => None
    end
  end.

Definition validate_list_str `{Pydantic} (j : JSON) : option (list str) :=
  match j with
  | JArr items => validate_items items
  | _ => None
  end.

(** One required field: it must be present and of its declared type. *)
Definition validate_field {A} (name : str) (validate : JSON -> option A)
    (members : list (str * JSON)) : Violation + A :=
  match member name members with
  | None => inl (MissingField name)
  | Some v =>
    match validate v with
    | Some a => inr a
    | None => inl (TypeMismatch name)
    end
  end.

Definition violation {A} (r : Violation + A) : list Violation :=
  match r with
  | inl e => [e]
  | inr _ => []
  end.

(** pydantic's validation of an object against the class above: every
    field is required (none has a default) and must pass the validator of its
    annotation; members the class does not declare are ignored; the
    violations of all fields are reported together, and a [MovieInfo] is
    built only when there is none. *)
Definition model_validate `{Pydantic} (j : JSON) : list Violation + MovieInfo :=
  match j with
  | JObj members =>
    let f_title := validate_field (py "title") validate_str members in
    let f_director := validate_field (py "director") validate_str members in
    let f_year := validate_field (py "year") validate_int members in
    let f_genre := validate_field (py "genre") validate_list_str members in
    let f_main_actors := validate_field (py "main_actors") validate_list_str members in
    let f_plot_summary := validate_field (py "plot_summary") validate_str members in
    let f_rating := validate_field (py "rating_out_of_10") validate_float members in
    match f_title, f_director, f_year, f_genre, f_main_actors, f_plot_summary, f_rating with
    | inr t, inr d, inr y, inr g, inr a, inr p, inr r =>
      inr {| title := t; director := d; year := y; genre := g;
             main_actors := a; plot_summary := p; rating_out_of_10 := r |}
    | _, _, _, _, _, _, _ =>
      inl (violation f_title ++ violation f_director ++ violation f_year
           ++ violation f_genre ++ violation f_main_actors
           ++ violation f_plot_summary ++ violation f_rating)
    end
  | _ => inl [NotAnObject]
  end.

(** The class declaration as a table: the required fields with their
    annotations, in declaration order. *)
Inductive FieldType := TStr | TInt | TFloat | TListStr.

Definition MovieInfo_schema : list (str * FieldType) :=
  [ (py "title", TStr); (py "director", TStr); (py "year", TInt);
    (py "genre", TListStr); (py "main_actors", TListStr);
    (py "plot_summary", TStr); (py "rating_out_of_10", TFloat) ].

Definition accepted {A} (o : option A) : bool :=
  match o with
  | Some _ => true
  | None => false
  end.

(** The value [v] passes the validator of the annotation [t]. *)
Definition has_type `{Pydantic} (t : FieldType) (v : JSON) : bool :=
  match t with
  | TStr => accepted (validate_str v)
  | TInt => accepted (validate_int v)
  | TFloat => accepted (validate_float v)
  | TListStr => accepted (validate_list_str v)
  end.

(** In the words of the claim: the member [name] is present in the object
    and of the declared type, with validated value [a]. *)
Definition field_ok {A} (name : str) (validate : JSON -> option A)
    (members : list (str * JSON)) (a : A) : Prop :=
  exists v, member name members = Some v /\ validate v = Some a.

(** In the words of the claim: [movie] is fully populated from the object,
    every field holding the validated value of the member of its name. *)
Definition populated_from `{Pydantic} (members : list (str * JSON))
    (movie : MovieInfo) : Prop :=
  field_ok (py "title") validate_str members (title movie)
  /\ field_ok (py "director") validate_str members (director movie)
  /\ field_ok (py "year") validate_int members (year movie)
  /\ field_ok (py "genre") validate_list_str members (genre movie)
  /\ field_ok (py "main_actors") validate_list_str members (main_actors movie)
  /\ field_ok (py "plot_summary") validate_str members (plot_summary movie)
  /\ field_ok (py "rating_out_of_10") validate_float members (rating_out_of_10 movie).

(** The violations [model_validate] reports for an object. *)
Definition field_violations `{Pydantic} (members : list (str * JSON)) : list Violation :=
  violation (validate_field (py "title") validate_str members)
  ++ violation (validate_field (py "director") validate_str members)
  ++ violation (validate_field (py "year") validate_int members)
  ++ violation (validate_field (py "genre") validate_list_str members)
  ++ violation (validate_field (py "main_actors") validate_list_str members)
  ++ violation (validate_field (py "plot_summary") validate_str members)
  ++ violation (validate_field (py "rating_out_of_10") validate_float members).

Definition model_validate_json `{Pydantic} (json_str : str) : Py MovieInfo :=
  match json_loads json_str with
  | None => raise (ValidationError [InvalidJSON])
  | Some j =>
    match model_validate j with
    | inl errors => raise (ValidationError errors)
    | inr movie => ret movie
    end
  end.

(** Lines 121-126 of [main]: the text handed to the validator. *)
Definition extract_json (raw_output : str) : str :=
  let start_idx := find 0x7B%N raw_output in
  let end_idx := (rfind 0x7D%N raw_output + 1)%Z in
  if negb (start_idx =? -1)%Z && negb (end_idx =? -1)%Z
  then slice raw_output start_idx end_idx
  else raw_output.

(** In the words of the claim: the payload located in [raw_output].  It is
    the whole text when no opening brace occurs, and the text from the first
    opening brace through the last closing brace when one follows it; when
    no closing brace follows the first opening brace there is nothing
    between them and the payload is empty. *)
Inductive located (raw_output : str) : str -> Prop :=
| located_whole :
    0x7B%N ∉ raw_output ->
    located raw_output raw_output
| located_braces (pre mid post : str) :
    raw_output = pre ++ [0x7B%N] ++ mid ++ [0x7D%N] ++ post ->
    0x7B%N ∉ pre -> 0x7D%N ∉ post ->
    located raw_output ([0x7B%N] ++ mid ++ [0x7D%N])
| located_nothing (pre post : str) :
    raw_output = pre ++ 0x7B%N :: post ->
    0x7B%N ∉ pre -> 0x7D%N ∉ post ->
    located raw_output [].

Definition error_line `{Pydantic} (e : PyExc) (raw_output : str) : str :=
  py "  [Error Parsing JSON] " ++ str_of_exception e ++ [0x0A%N]
  ++ py "  Raw Output: " ++ raw_output.

(** What the [except] clause leaves behind: the diagnostic line on standard
    output and the exception raised again. *)
Definition reraised `{Pydantic} (errors : list Violation) (raw_output : str)
    (w : World) : Outcome MovieInfo * World :=
  (Raise (ValidationError errors),
   emit (error_line (ValidationError errors) raw_output ++ [0x0A%N]) w).

(** Lines 117-132 of [main]: from the run's final output to a [MovieInfo],
    or to the exception the [except] clause raises again. *)
Definition parse_final_output `{Pydantic} (final_output : str) : Py MovieInfo :=
  let raw_output := strip final_output in
  try_except
    (let json_str := extract_json raw_output in
     model_validate_json json_str)
    (fun e =>
       let* _ := print (error_line e raw_output) in
       raise e).

Definition str_of_Z (z : Z) : str := py (NilZero.string_of_int (Z.to_int z)).

Definition user_input : str :=
  py "Tell me about Inception, the Christopher Nolan sci-fi thriller "
  ++ py "from 2010 with Leonardo DiCaprio involving dreams within dreams.".

(** Lines 134-148 of [main]: the report printed for a validated movie. *)
Definition print_movie `{PyRuntime} `{Pydantic} (movie : MovieInfo) : Py unit :=
  let* _ := print (py "[Extracted Structured Data]") in
  let* _ := print (py "  Title          : " ++ title movie) in
  let* _ := print (py "  Director       : " ++ director movie) in
  let* _ := print (py "  Year           : " ++ str_of_Z (year movie)) in
  let* _ := print (py "  Genre          : " ++ join (py ", ") (genre movie)) in
  let* _ := print (py "  Main Actors    : " ++ join (py ", ") (main_actors movie)) in
  let* _ := print (py "  Rating         : " ++ float_repr (rating_out_of_10 movie) ++ py "/10") in
  let* _ := print (py "  Plot Summary   : " ++ plot_summary movie) in
  let* _ := print ([0x0A%N] ++ py "[Raw JSON Output]") in
  let* _ := print (model_dump_json movie 2) in
  print ([0x0A%N] ++ repeat 0x3D%N 60).

(** Lines 97-108 of [main]: what is printed before the run. *)
Definition banner : Py unit :=
  let* _ := print (py "  CONCEPT 5: STRUCTURED OUTPUT") in
  let* _ := print (py "Structured Output = Agent returns a typed Python object") in
  let* _ := print (py "instead of unstructured text. Powered by Pydantic." ++ [0x0A%N]) in
  let* _ := print (py "[User Input]" ++ [0x0A%N] ++ user_input ++ [0x0A%N]) in
  print (py "[Agent] → Extracting structured data..." ++ [0x0A%N]).

(** [main]; [Runner_run] stands for
    [Runner.run(starting_agent=movie_extractor, input=...)] followed by
    [.final_output]. *)
Definition main `{PyRuntime} `{Pydantic} (Runner_run : str -> Py str) : Py unit :=
  let* _ := banner in
  let* final_output := Runner_run user_input in
  let* movie := parse_final_output final_output in
  print_movie movie.

End StructuredOutput.

(* ===================================================================== *)
(** ** src/7_guardrails.py: the input guardrail *)
(* ===================================================================== *)

Module Guardrails.

Import Agents.

(** The structured decision of the classifier agent. *)
Record OffTopicCheck := {
  is_off_topic : bool;
  reasoning : str
}.

Record GuardrailFunctionOutput := {
  output_info : OffTopicCheck;
  tripwire_triggered : bool
}.

(** What the script takes from the Agents SDK: the items of a list-shaped
    input with their [str(...)], and [Runner.run] on the classifier agent
    followed by [.final_output]. *)
Class AgentsSdk := {
  TResponseInputItem : Type;
  str_of_items : list TResponseInputItem -> str;
  run_classifier : str -> Py OffTopicCheck
}.

(** [input: str | list[TResponseInputItem]]. *)
Inductive RunInput `{AgentsSdk} :=
| InputText (s : str)
| InputItems (items : list TResponseInputItem).

Definition str_of_bool (b : bool) : str := if b then py "True" else py "False".

(** [input if isinstance(input, str) else str(input)]. *)
Definition user_text `{AgentsSdk} (input : RunInput) : str :=
  match input with
  | InputText s => s
  | InputItems items => str_of_items items
  end.

Definition block_harmful_input `{AgentsSdk} (input : RunInput)
    : Py GuardrailFunctionOutput :=
  let* decision := run_classifier (user_text input) in
  let* _ := print (py "  [Guardrail Check] is_off_topic=" ++ str_of_bool (is_off_topic decision)) in
  let* _ := print (py "  [Guardrail Reason] " ++ reasoning decision) in
  ret {| output_info := decision; tripwire_triggered := is_off_topic decision |}.

(** The function behind each guardrail an agent can declare. *)
Definition guardrail_function `{AgentsSdk} (g : GuardrailRef)
    : RunInput -> Py GuardrailFunctionOutput :=
  match g with
  | guardrail_block_harmful_input => block_harmful_input
  end.

(** Modelled from the spec: the Guardrail Evaluator of §4.4, which is part
    of the SDK's runner and not of the repository.  The decisions of one
    phase are combined with a logical OR on the block flag. *)
Definition phase_blocked (decisions : list GuardrailFunctionOutput) : bool :=
  existsb tripwire_triggered decisions.

(** Modelled from the spec: one guardrail invocation under the Evaluator of
    §4.4; a guardrail whose own evaluation fails contributes no decision
    (the fail-open policy). *)
Definition invoke_guardrail `{AgentsSdk} (g : GuardrailRef) (input : RunInput)
    : Py (option GuardrailFunctionOutput) :=
  try_except
    (let* d := guardrail_function g input in ret (Some d))
    (fun _ => ret None).

Fixpoint invoke_guardrails `{AgentsSdk} (gs : list GuardrailRef) (input : RunInput)
    : Py (list GuardrailFunctionOutput) :=
  match gs with
  | [] => ret []
  | g :: r =>
    let* d := invoke_guardrail g input in
    let* ds := invoke_guardrails r input in
    ret (match d with Some d => d :: ds | None => ds end)
  end.

(** Modelled from the spec: the input phase of §4.2, step 1, for an agent:
    every declared input guardrail is invoked on the caller's input and the
    phase is blocked when the combined decision is a block. *)
Definition input_phase_blocked `{AgentsSdk} (a : AgentRef) (input : RunInput)
    : Py bool :=
  let* decisions := invoke_guardrails (input_guardrails (agent a)) input in
  ret (phase_blocked decisions).

End Guardrails.

(* ===================================================================== *)
(** ** Instances for evaluation *)
(* ===================================================================== *)

(** The statements below quantify over the interpreter's tables, over
    pydantic and over the SDK.  To evaluate them on concrete outputs this
    module provides one instance of each: an ASCII-only runtime, and a
    reader for plain JSON texts with validators that accept exactly the JSON
    type of each annotation. *)
Module Demo.

Import StructuredOutput Guardrails.

Definition ascii_runtime : PyRuntime :=
  {| unicode_lower := (fun s => s);
     round_ndigits := (fun x _ => x);
     float_repr := (fun _ => py "<float>") |}.

Definition is_json_space (c : char) : bool :=
  ((c =? 0x20) || (c =? 0x09) || (c =? 0x0A) || (c =? 0x0D))%N.

Fixpoint skip_space (s : str) : str :=
  match s with
  | c :: r => if is_json_space c then skip_space r else s
  | [] => []
  end.

(** The characters of a string literal after its opening quote, up to the
    closing quote; of the escapes only the one-character ones are read. *)
Fixpoint read_string (s : str) : option (str * str) :=
  match s with
  | [] => None
  | c :: r =>
    if (c =? 0x22)%N then Some ([], r)
    else if (c =? 0x5C)%N then
      match r with
      | e :: r' =>
        let unescaped :=
          if (e =? 0x6E)%N then Some 0x0A%N
          else if (e =? 0x74)%N then Some 0x09%N
          else if (e =? 0x22)%N || (e =? 0x5C)%N || (e =? 0x2F)%N then Some e
          else None in
        match unescaped, read_string r' with
        | Some x, Some (body, rest) => Some (x :: body, rest)
        | _, _ => None
        end
      | [] => None
      end
    else
      match read_string r with
      | Some (body, rest) => Some (c :: body, rest)
      | None => None
      end
  end.

Definition is_digit (c : char) : bool := ((0x30 <=? c) && (c <=? 0x39))%N.

(** Leading decimal digits: their value, their number and the rest. *)
Fixpoint read_digits (s : str) (acc : Z) (n : nat) : Z * nat * str :=
  match s with
  | c :: r =>
    if is_digit c then read_digits r (acc * 10 + Z.of_N (c - 0x30))%Z (S n)
    else (acc, n, s)
  | [] => (acc, n, [])
  end.

Definition float_of_Z (z : Z) : float :=
  if (z <? 0)%Z then (- PrimFloat.of_uint63 (Uint63.of_Z (- z)))%float
  else PrimFloat.of_uint63 (Uint63.of_Z z).

(** A number without exponent: an integer, or a decimal with few enough
    digits for the quotient of two exact floats to be its nearest float. *)
Definition read_number (s : str) : option (JSON * str) :=
  let '(negative, s1) :=
    match s with
    | c :: r => if (c =? 0x2D)%N then (true, r) else (false, s)
    | [] => (false, s)
    end in
  let '(int_part, n_int, s2) := read_digits s1 0 0 in
  let sign (z : Z) := if negative then (- z)%Z else z in
  match n_int with
  | O => None
  | S _ =>
    match s2 with
    | c :: r =>
      if (c =? 0x2E)%N then
        let '(mantissa, n_all, s3) := read_digits r int_part n_int in
        let n_frac := (n_all - n_int)%nat in
        if (0 <? n_frac)%nat && (n_all <=? 15)%nat then
          Some (JFloat (float_of_Z (sign mantissa) / float_of_Z (10 ^ Z.of_nat n_frac)), s3)
        else None
      else Some (JInt (sign int_part), s2)
    | [] => Some (JInt (sign int_part), s2)
    end
  end.

Definition starts_with (prefix s : str) : option str :=
  if decide (firstn (length prefix) s = prefix)
  then Some (skipn (length prefix) s) else None.

Fixpoint read_value (fuel : nat) (s : str) {struct fuel} : option (JSON * str) :=
  match fuel with
  | O => None
  | S fuel =>
    match skip_space s with
    | [] => None
    | c :: r =>
      if (c =? 0x7B)%N then
        match skip_space r with
        | c' :: r' =>
          if (c' =? 0x7D)%N then Some (JObj [], r')
          else
            match read_members fuel r with
            | Some (members, rest) => Some (JObj members, rest)
            | None => None
            end
        | [] => None
        end
      else if (c =? 0x5B)%N then
        match skip_space r with
        | c' :: r' =>
          if (c' =? 0x5D)%N then Some (JArr [], r')
          else
            match read_items fuel r with
            | Some (items, rest) => Some (JArr items, rest)
            | None => None
            end
        | [] => None
        end
      else if (c =? 0x22)%N then
        match read_string r with
        | Some (body, rest) => Some (JStr body, rest)
        | None => None
        end
      else
        match starts_with (py "true") (c :: r), starts_with (py "false") (c :: r),
              starts_with (py "null") (c :: r) with
        | Some rest, _, _ => Some (JBool true, rest)
        | _, Some rest, _ => Some (JBool false, rest)
        | _, _, Some rest => Some (JNull, rest)
        | _, _, _ => read_number (c :: r)
        end
    end
  end
with read_members (fuel : nat) (s : str) {struct fuel}
    : option (list (str * JSON) * str) :=
  match fuel with
  | O => None
  | S fuel =>
    match skip_space s with
    | c :: r =>
      if (c =? 0x22)%N then
        match read_string r with
        | Some (key, r1) =>
          match skip_space r1 with
          | c1 :: r2 =>
            if (c1 =? 0x3A)%N then
              match read_value fuel r2 with
              | Some (v, r3) =>
                match skip_space r3 with
                | c3 :: r4 =>
                  if (c3 =? 0x7D)%N then Some ([(key, v)], r4)
                  else if (c3 =? 0x2C)%N then
                    match read_members fuel r4 with
                    | Some (members, rest) => Some ((key, v) :: members, rest)
                    | None => None
                    end
                  else None
                | [] => None
                end
              | None => None
              end
            else None
          | [] => None
          end
        | None => None
        end
      else None
    | [] => None
    end
  end
with read_items (fuel : nat) (s : str) {struct fuel} : option (list JSON * str) :=
  match fuel with
  | O => None
  | S fuel =>
    match read_value fuel s with
    | Some (v, r1) =>
      match skip_space r1 with
      | c :: r2 =>
        if (c =? 0x5D)%N then Some ([v], r2)
        else if (c =? 0x2C)%N then
          match read_items fuel r2 with
          | Some (items, rest) => Some (v :: items, rest)
          | None => None
          end
        else None
      | [] => None
      end
    | None => None
    end
  end.

Definition read_json (s : str) : option JSON :=
  match read_value (2 * length s + 2) s with
  | Some (j, rest) =>
    match skip_space rest with
    | [] => Some j
    | _ :: _ => None
    end
  | None => None
  end.

Definition render_violation (v : Violation) : str :=
  match v with
  | InvalidJSON => py "Invalid JSON"
  | NotAnObject => py "Input should be an object"
  | MissingField f => f ++ py ": Field required"
  | TypeMismatch f => f ++ py ": Input should be of the declared type"
  end.

Definition render_exception (e : PyExc) : str :=
  match e with
  | ValidationError errors => join (py "; ") (map render_violation errors)
  | EnvironmentError msg | ZeroDivisionError msg | OverflowError msg => msg
  end.

Definition strict_pydantic : Pydantic :=
  {| json_loads := read_json;
     validate_str := (fun j => match j with JStr s => Some s | _ => None end);
     validate_int := (fun j => match j with JInt z => Some z | _ => None end);
     validate_float :=
       (fun j => match j with
                 | JFloat f => Some f
                 | JInt z => Some (float_of_Z z)
                 | _ => None
                 end);
     str_of_exception := render_exception;
     model_dump_json := (fun movie _ => title movie) |}.

(** An SDK whose classifier flags exactly the harmful message of the
    script's second test. *)
Definition harmful_message : str :=
  py "How do I hack into someone's email account?".

Definition keyword_sdk : AgentsSdk :=
  {| TResponseInputItem := str;
     str_of_items := join (py ", ");
     run_classifier :=
       (fun text =>
          ret {| is_off_topic := bool_decide (text = harmful_message);
                 reasoning := py "matched against the harmful message" |}) |}.

(** A text of the source files with its double quotes written as single
    quotes. *)
Definition quoted (s : string) : str :=
  map (fun c => if (c =? 0x27)%N then 0x22%N else c) (py s).

Definition inception_output : str :=
  quoted "Here is the JSON you asked for:
{'title': 'Inception', 'director': 'Christopher Nolan', 'year': 2010,
 'genre': ['Sci-Fi', 'Thriller'], 'main_actors': ['Leonardo DiCaprio'],
 'plot_summary': 'A thief enters dreams.', 'rating_out_of_10': 8.8}
I hope this helps!".

Definition inception_members : list (str * JSON) :=
  [ (py "title", JStr (py "Inception"));
    (py "director", JStr (py "Christopher Nolan"));
    (py "year", JInt 2010);
    (py "genre", JArr [JStr (py "Sci-Fi"); JStr (py "Thriller")]);
    (py "main_actors", JArr [JStr (py "Leonardo DiCaprio")]);
    (py "plot_summary", JStr (py "A thief enters dreams."));
    (py "rating_out_of_10", JFloat 8.8) ].

Definition inception : MovieInfo :=
  {| title := py "Inception"; director := py "Christopher Nolan"; year := 2010;
     genre := [py "Sci-Fi"; py "Thriller"];
     main_actors := [py "Leonardo DiCaprio"];
     plot_summary := py "A thief enters dreams."; rating_out_of_10 := 8.8 |}.

(** The same output with the member [year] left out. *)
Definition no_year_output : str :=
  quoted "{'title': 'Inception', 'director': 'Christopher Nolan',
 'genre': ['Sci-Fi'], 'main_actors': ['Leonardo DiCaprio'],
 'plot_summary': 'A thief enters dreams.', 'rating_out_of_10': 8.8}".

End Demo.

(* ===================================================================== *)
(** ** src/2_runner.py: the consumer of a streamed run *)
(* ===================================================================== *)

Module Runner.

(** An attribute an object may or may not have ([hasattr]). *)
Inductive Attr (A : Type) :=
| Missing
| Has (v : A).
Arguments Missing {A}.
Arguments Has {A} v.

(** The objects the loop of [demo_streamed_runner] looks into, with the
    attributes it reads: a block and its [text], a delta and its [content]
    (which may be [None]), the data of an event and its [delta], an event
    with its [type] and [data]. *)
Record Block := { text : Attr str }.

Record Delta := { content : Attr (option (list Block)) }.

Record EventData := { delta : Attr Delta }.

Record StreamEvent := { type : str; data : EventData }.

(** [if hasattr(block, "text"): print(block.text, end="", flush=True)]. *)
Definition print_block (block : Block) : Py unit :=
  match text block with
  | Has t => write t
  | Missing => ret tt
  end.

(** [for block in blocks: ...]. *)
Fixpoint print_blocks (blocks : list Block) : Py unit :=
  match blocks with
  | [] => ret tt
  | block :: rest => let* _ := print_block block in print_blocks rest
  end.

(** The body of the [async for]: one event of the stream. *)
Definition handle_chunk (chunk : StreamEvent) : Py unit :=
  if decide (type chunk = py "raw_response_event") then
    match delta (data chunk) with
    | Has d =>
      match content d with
      | Has c => print_blocks (match c with Some blocks => blocks | None => [] end)
      | Missing => ret tt
      end
    | Missing => ret tt
    end
  else ret tt.

(** [async for chunk in stream.stream_events(): ...]. *)
Fixpoint stream_loop (events : list StreamEvent) : Py unit :=
  match events with
  | [] => ret tt
  | chunk :: rest => let* _ := handle_chunk chunk in stream_loop rest
  end.

(** [demo_streamed_runner], given the events the streamed run yields. *)
Definition demo_streamed_runner (events : list StreamEvent) : Py unit :=
  let* _ := print ([0x0A%N] ++ py "[Mode 3] STREAMED Runner (Runner.run_streamed)") in
  let* _ := print (repeat 0x2D%N 40) in
  let* _ := write (py "[Streaming response]: ") in
  let* _ := stream_loop events in
  print [].

(** The texts an event contributes: those of the blocks of its delta's
    content, for an event of type ["raw_response_event"]. *)
Definition block_texts (blocks : list Block) : list str :=
  flat_map (fun block => match text block with Has t => [t] | Missing => [] end)
           blocks.

Definition chunk_texts (chunk : StreamEvent) : list str :=
  if decide (type chunk = py "raw_response_event") then
    match delta (data chunk) with
    | Has {| content := Has (Some blocks) |} => block_texts blocks
    | _ => []
    end
  else [].

(** An event that carries the single text [t]. *)
Definition text_event (t : str) : StreamEvent :=
  {| type := py "raw_response_event";
     data := {| delta := Has {| content := Has (Some [ {| text := Has t |} ]) |} |} |}.

End Runner.

(* ===================================================================== *)
(** ** The scripts as programs: imports first, then [main] *)
(* ===================================================================== *)

Module Scripts.

Import GroqSetup.

(** The names the module [groq_setup] binds at its top level, in the order
    of its statements. *)
Definition groq_setup_names : list str :=
  [ py "os"; py "load_dotenv"; py "AsyncOpenAI"; py "set_default_openai_client";
    py "set_default_openai_api"; py "set_tracing_disabled"; py "GROQ_API_KEY";
    py "GROQ_BASE_URL"; py "MODEL"; py "groq_client" ].

(** [from module import names]: the first name the module does not bind,
    if any; Python raises [ImportError] for it. *)
Definition unbound_name (bound names : list str) : option str :=
  List.find (fun name => negb (bool_decide (name ∈ bound))) names.

(** How a script ends when no exception of its body escapes: it ran
    [main], or the [from groq_setup import ...] statement raised
    [ImportError] for a name before anything else was executed. *)
Inductive ScriptEnd :=
| Finished
| ImportError (name : str).

(** A script: [import groq_setup], then [from groq_setup import names],
    then (the agent declarations and) [asyncio.run(main())]. *)
Definition script (dotenv : gmap str str -> gmap str str) (names : list str)
    (main : Py unit) : Py ScriptEnd :=
  let* _ := import_groq_setup dotenv in
  match unbound_name groq_setup_names names with
  | Some name => ret (ImportError name)
  | None => let* _ := main in ret Finished
  end.

(** What each script imports from [groq_setup]. *)
Definition imports_MODEL : list str := [py "MODEL"].

Definition imports_MODEL_and_JSON_TOOL_INSTRUCTIONS : list str :=
  [py "MODEL"; py "JSON_TOOL_INSTRUCTIONS"].

(** [3_tools.py] (as [1_agent.py], [2_runner.py], [4_handoffs.py],
    [6_triage_agent.py] and [7_guardrails.py]) imports [MODEL]. *)
Definition script_3_tools (dotenv : gmap str str -> gmap str str)
    (main : Py unit) : Py ScriptEnd :=
  script dotenv imports_MODEL main.

(** [2_tools.py] and [4_structured_output.py] import [MODEL] and
    [JSON_TOOL_INSTRUCTIONS]. *)
Definition script_2_tools (dotenv : gmap str str -> gmap str str)
    (main : Py unit) : Py ScriptEnd :=
  script dotenv imports_MODEL_and_JSON_TOOL_INSTRUCTIONS main.

Definition script_4_structured_output `{PyRuntime} `{StructuredOutput.Pydantic}
    (dotenv : gmap str str -> gmap str str) (Runner_run : str -> Py str)
    : Py ScriptEnd :=
  script dotenv imports_MODEL_and_JSON_TOOL_INSTRUCTIONS
         (StructuredOutput.main Runner_run).

End Scripts.

(* ===================================================================== *)
(** * Properties *)
(* ===================================================================== *)

Import Demo.

(** ** Strings *)

Ltac n_cases :=
  repeat first
    [ match goal with
      | |- context [(?a <=? ?b)%N] => destruct (N.leb_spec a b); try lia
      | |- context [(?a =? ?b)%N] => destruct (N.eqb_spec a b); try lia
      end ].

Lemma ascii_lower_isspace (c : char) :
  isspace c = true -> ascii_lower c = c.
Proof.
  unfold ascii_lower. intros Hsp.
  destruct (N.leb_spec 0x41 c) as [Hlo|Hlo]; [|reflexivity].
  destruct (N.leb_spec c 0x5A) as [Hhi|Hhi]; [|reflexivity].
  exfalso. revert Hsp. unfold isspace. n_cases; discriminate.
Qed.

Lemma lstrip_length (s : str) : length (lstrip s) <= length s.
Proof.
  induction s as [|c s IH]; simpl; [lia|].
  destruct (isspace c); simpl; lia.
Qed.

Lemma lstrip_spaces (ws s : str) :
  forallb isspace ws = true -> lstrip (ws ++ s) = lstrip s.
Proof.
  induction ws as [|c ws IH]; simpl; [reflexivity|].
  intros H. apply andb_prop in H as [Hc Hws]. rewrite Hc. auto.
Qed.

Lemma lstrip_fixed_app (k s : str) :
  k <> [] -> lstrip k = k -> lstrip (k ++ s) = k ++ s.
Proof.
  destruct k as [|c k]; [congruence|]. intros _. simpl.
  destruct (isspace c) eqn:Hc; [|reflexivity].
  intros H. pose proof (lstrip_length k) as Hl. rewrite H in Hl. simpl in Hl. lia.
Qed.

Lemma strip_padded (ws1 k ws2 : str) :
  forallb isspace ws1 = true -> forallb isspace ws2 = true ->
  k <> [] -> lstrip k = k -> rstrip k = k ->
  strip (ws1 ++ k ++ ws2) = k.
Proof.
  intros H1 H2 Hne Hl Hr. unfold strip.
  rewrite lstrip_spaces by exact H1.
  rewrite lstrip_fixed_app by assumption.
  unfold rstrip. rewrite rev_app_distr.
  rewrite lstrip_spaces; [exact Hr|].
  rewrite forallb_forall in *. intros x Hx. apply H2. now apply in_rev.
Qed.

Lemma lower_ascii `{PyRuntime} (s : str) :
  forallb is_ascii s = true -> lower unicode_lower s = map ascii_lower s.
Proof. intros Hs. unfold lower. now rewrite Hs. Qed.

Lemma map_ascii_lower_spaces (ws : str) :
  forallb isspace ws = true -> map ascii_lower ws = ws.
Proof.
  induction ws as [|c ws IH]; simpl; [reflexivity|].
  intros H. apply andb_prop in H as [Hc Hws].
  now rewrite ascii_lower_isspace, IH.
Qed.

(** ** The weather tool *)

Import Tools.

Lemma weather_keys :
  weather_reports.*1
  = [py "karachi"; py "lahore"; py "islamabad"; py "london"; py "new york"].
Proof. reflexivity. Qed.

Lemma weather_keys_stripped (k : str) :
  k ∈ weather_reports.*1 -> k <> [] /\ lstrip k = k /\ rstrip k = k.
Proof.
  rewrite weather_keys. intros Hk.
  repeat (apply elem_of_cons in Hk as [->|Hk]; [vm_compute; repeat split; congruence|]).
  now apply elem_of_nil in Hk.
Qed.

Lemma fake_weather_data_Some (k r : str) :
  (k, r) ∈ weather_reports -> fake_weather_data !! k = Some r.
Proof.
  intros Hk. apply elem_of_list_to_map_1; [|exact Hk].
  rewrite weather_keys. apply (bool_decide_unpack _). vm_compute. exact I.
Qed.

Lemma fake_weather_data_None (k : str) :
  k ∉ weather_reports.*1 -> fake_weather_data !! k = None.
Proof. apply not_elem_of_list_to_map_1. Qed.

(** C6.  [get_weather] answers with the report stored under
    [city.lower().strip()] when that key is one of the five of the table,
    and with the "not available" sentence around the unchanged argument
    otherwise; the interpreter state is left as it was.  A name of the
    table spelled in any mix of ASCII cases and padded with ASCII white
    space is therefore found, and ["Lahore"] gives the Lahore report. *)
Theorem get_weather_lookup `{PyRuntime} (city : str) (w : World) :
  let key := strip (lower unicode_lower city) in
  weather_reports.*1
    = [py "karachi"; py "lahore"; py "islamabad"; py "london"; py "new york"]
  /\ (forall report, (key, report) ∈ weather_reports ->
        get_weather city w = (Return report, w))
  /\ (key ∉ weather_reports.*1 ->
        get_weather city w
        = (Return (py "Weather data for '" ++ city ++ py "' not available."), w))
  /\ (forall ws1 ws2 report,
        forallb is_ascii city = true ->
        forallb isspace ws1 = true -> forallb is_ascii ws1 = true ->
        forallb isspace ws2 = true -> forallb is_ascii ws2 = true ->
        (map ascii_lower city, report) ∈ weather_reports ->
        get_weather (ws1 ++ city ++ ws2) w = (Return report, w))
  /\ get_weather (py "Lahore") w = (Return (py "☀️  24°C, Sunny, Humidity: 45%"), w).
Proof.
  intros key. split; [exact weather_keys|]. split; [|split; [|split]].
  - intros report Hin. unfold get_weather, ret. fold key.
    rewrite (fake_weather_data_Some _ _ Hin). reflexivity.
  - intros Hout. unfold get_weather, ret. fold key.
    rewrite (fake_weather_data_None _ Hout). reflexivity.
  - intros ws1 ws2 report Hc Hs1 Ha1 Hs2 Ha2 Hin.
    unfold get_weather, ret.
    pose proof (list_elem_of_fmap_2 fst _ _ Hin) as Hk.
    change (fst (map ascii_lower city, report)) with (map ascii_lower city) in Hk.
    apply weather_keys_stripped in Hk as (Hk0 & Hk1 & Hk2).
    rewrite lower_ascii.
    + rewrite !map_app.
      rewrite (map_ascii_lower_spaces ws1), (map_ascii_lower_spaces ws2)
        by assumption.
      rewrite strip_padded by assumption.
      rewrite (fake_weather_data_Some _ _ Hin). reflexivity.
    + rewrite !forallb_app, Hc, Ha1, Ha2. reflexivity.
  - unfold get_weather, ret. vm_compute. reflexivity.
Qed.

Lemma get_weather_lookup_witness :
  @get_weather ascii_runtime ([0x20; 0x09]%N ++ py "LaHoRe" ++ [0x0A]%N) world0
  = (Return (py "☀️  24°C, Sunny, Humidity: 45%"), world0).
Proof.
  apply (proj1 (proj2 (proj2 (proj2
           (@get_weather_lookup ascii_runtime (py "LaHoRe") world0)))));
    try (vm_compute; reflexivity).
  apply list_elem_of_In. vm_compute. tauto.
Defined.

(** ** The BMI tool *)

Lemma get_weather_pure `{PyRuntime} (city : str) :
  exists o, forall w, get_weather city w = (o, w).
Proof. eexists. intros w. reflexivity. Qed.

Lemma calculate_bmi_pure `{PyRuntime} (weight_kg height_m : float) :
  exists o, forall w, calculate_bmi weight_kg height_m w = (o, w).
Proof.
  unfold calculate_bmi, bind, float_pow_2, float_truediv, ret, raise.
  repeat match goal with
         | |- context [if ?c then _ else _] => destruct c
         end;
    eexists; intros w; reflexivity.
Qed.

(** C8.  The two tool bodies are deterministic: two invocations with the
    same arguments give the same result (a returned string or a raised
    exception) in whatever interpreter states [w] and [w'] they are run, and
    neither changes the state it runs in. *)
Theorem tools_deterministic `{PyRuntime}
    (city city' : str) (weight_kg weight_kg' height_m height_m' : float)
    (w w' : World) :
  city = city' -> weight_kg = weight_kg' -> height_m = height_m' ->
  fst (get_weather city w) = fst (get_weather city' w')
  /\ fst (calculate_bmi weight_kg height_m w)
     = fst (calculate_bmi weight_kg' height_m' w')
  /\ snd (get_weather city w) = w
  /\ snd (get_weather city' w') = w'
  /\ snd (calculate_bmi weight_kg height_m w) = w
  /\ snd (calculate_bmi weight_kg' height_m' w') = w'.
Proof.
  intros <- <- <-.
  destruct (get_weather_pure city) as [o Ho].
  destruct (calculate_bmi_pure weight_kg height_m) as [o' Ho'].
  rewrite !Ho, !Ho'. simpl. repeat split.
Qed.

Lemma tools_deterministic_witness :
  fst (@get_weather ascii_runtime (py "Karachi") world0)
  = fst (@get_weather ascii_runtime (py "Karachi")
           (snd (@get_weather ascii_runtime (py "London") world0)))
  /\ fst (@calculate_bmi ascii_runtime 80 1.75 world0)
     = fst (@calculate_bmi ascii_runtime 80 1.75
              (snd (@calculate_bmi ascii_runtime 60 1.5 world0))).
Proof.
  pose proof (@tools_deterministic ascii_runtime
                (py "Karachi") (py "Karachi") 80 80 1.75 1.75 world0
                (snd (@get_weather ascii_runtime (py "London") world0))
                eq_refl eq_refl eq_refl) as (Hw & _).
  pose proof (@tools_deterministic ascii_runtime
                (py "Karachi") (py "Karachi") 80 80 1.75 1.75 world0
                (snd (@calculate_bmi ascii_runtime 60 1.5 world0))
                eq_refl eq_refl eq_refl) as (_ & Hb & _).
  split; assumption.
Defined.

(** C9, at the inputs where it fails.  A height of [1e-200] passes the
    guard [height_m <= 0], its square underflows to zero and the division
    raises [ZeroDivisionError]; a height of [1e200] passes the guard and
    [height_m ** 2] raises [OverflowError].  Neither call returns a
    string. *)
Theorem calculate_bmi_raises `{PyRuntime} (w : World) :
  (1e-200 <=? 0)%float = false
  /\ (1e-200 * 1e-200 =? 0)%float = true
  /\ calculate_bmi 70 1e-200 w
     = (Raise (ZeroDivisionError (py "float division by zero")), w)
  /\ (1e200 <=? 0)%float = false
  /\ calculate_bmi 70 1e200 w
     = (Raise (OverflowError (py "(34, 'Numerical result out of range')")), w).
Proof. repeat split. Qed.

(** ** The configuration module *)

Import GroqSetup.

Lemma import_groq_setup_unfold (dotenv : gmap str str -> gmap str str) (w : World) :
  import_groq_setup dotenv w
  = match dotenv (environ w) !! py "GROQ_API_KEY" with
    | Some (c :: k) =>
      (Return {| GROQ_API_KEY := c :: k;
                 groq_client := {| api_key := c :: k; base_url := GROQ_BASE_URL |} |},
       {| environ := dotenv (environ w);
          stdout := stdout w
                    ++ (py "[groq_setup] ✅ Groq client configured | Model: " ++ MODEL)
                    ++ [0x0A%N];
          default_openai_client := Some {| api_key := c :: k; base_url := GROQ_BASE_URL |};
          default_openai_api := Some (py "chat_completions");
          tracing_disabled := Some true |})
    | _ =>
      (Raise (EnvironmentError key_not_found),
       {| environ := dotenv (environ w);
          stdout := stdout w;
          default_openai_client := default_openai_client w;
          default_openai_api := default_openai_api w;
          tracing_disabled := tracing_disabled w |})
    end.
Proof.
  unfold import_groq_setup, bind, load_dotenv, os_getenv. cbn [environ].
  destruct (dotenv (environ w) !! py "GROQ_API_KEY") as [[|c k]|]; reflexivity.
Qed.

(** C10.  Importing [groq_setup] raises [EnvironmentError] exactly when
    [os.getenv("GROQ_API_KEY")], read after [load_dotenv()], is unset or
    empty, and then nothing has been registered.  When the variable is set,
    the import returns: the Groq client (that key, Groq's base URL) is the
    SDK's default client, the API mode is ["chat_completions"] and tracing is
    disabled. *)
Theorem import_groq_setup_outcome (dotenv : gmap str str -> gmap str str) (w : World) :
  let key := dotenv (environ w) !! py "GROQ_API_KEY" in
  ((exists e w', import_groq_setup dotenv w = (Raise e, w'))
   <-> key = None \/ key = Some [])
  /\ (forall e w', import_groq_setup dotenv w = (Raise e, w') ->
        e = EnvironmentError key_not_found
        /\ default_openai_client w' = default_openai_client w
        /\ default_openai_api w' = default_openai_api w
        /\ tracing_disabled w' = tracing_disabled w)
  /\ (forall k, key = Some k -> k <> [] ->
        exists w',
          import_groq_setup dotenv w
          = (Return {| GROQ_API_KEY := k;
                       groq_client := {| api_key := k; base_url := GROQ_BASE_URL |} |},
             w')
          /\ default_openai_client w'
             = Some {| api_key := k; base_url := py "https://api.groq.com/openai/v1" |}
          /\ default_openai_api w' = Some (py "chat_completions")
          /\ tracing_disabled w' = Some true).
Proof.
  intros key. rewrite import_groq_setup_unfold. fold key.
  destruct key as [[|c k]|]; (split; [split|split]).
  - intros _. now right.
  - intros _. eauto.
  - intros e w' [= <- <-]. repeat split.
  - intros k' [= <-] Hk. congruence.
  - intros (e & w' & [=]).
  - intros [[=]|[=]].
  - intros e w' [=].
  - intros k' [= <-] _. eexists. split; [reflexivity|]. repeat split.
  - intros _. now left.
  - intros _. eauto.
  - intros e w' [= <- <-]. repeat split.
  - intros k' [=].
Qed.

Lemma import_groq_setup_outcome_witness :
  exists w',
    import_groq_setup (fun env => env ∪ {[ py "GROQ_API_KEY" := py "gsk_demo" ]}) world0
    = (Return {| GROQ_API_KEY := py "gsk_demo";
                 groq_client := {| api_key := py "gsk_demo"; base_url := GROQ_BASE_URL |} |},
       w')
    /\ default_openai_client w'
       = Some {| api_key := py "gsk_demo"; base_url := py "https://api.groq.com/openai/v1" |}
    /\ default_openai_api w' = Some (py "chat_completions")
    /\ tracing_disabled w' = Some true.
Proof.
  apply (proj2 (proj2 (import_groq_setup_outcome
                         (fun env => env ∪ {[ py "GROQ_API_KEY" := py "gsk_demo" ]})
                         world0))).
  - vm_compute. reflexivity.
  - vm_compute. discriminate.
Defined.

(** ** The handoff graph *)

Import Agents.

Lemma handoff_target_is_leaf (a b : AgentRef) :
  handoff a b -> handoffs (agent b) = [].
Proof.
  unfold handoff.
  destruct a; cbn [agent plain handoffs In]; intros Hb;
    repeat (destruct Hb as [<-|Hb]; [reflexivity|]); contradiction.
Qed.

Lemma handoff_no_second_step (a b c : AgentRef) :
  handoff a b -> ~ handoff b c.
Proof.
  intros Hab Hbc. apply handoff_target_is_leaf in Hab.
  unfold handoff in Hbc. rewrite Hab in Hbc. exact Hbc.
Qed.

Lemma handoff_clos_trans_step (a b : AgentRef) :
  clos_trans AgentRef handoff a b -> handoff a b.
Proof.
  induction 1 as [x y Hxy | x y z _ Hxy _ Hyz]; [exact Hxy|].
  destruct (handoff_no_second_step _ _ _ Hxy Hyz).
Qed.

(** C5.  The handoff relation of the repository is: Language Router to the
    English and Urdu specialists, Triage Agent to the Career, Finance and
    Tech agents, and nothing else.  It has no cycle and a chain of handoffs
    from any agent makes at most one transfer, so it stays within any depth
    limit of at least one (the runner's default is 5). *)
Theorem handoff_graph_acyclic :
  handoffs (agent router_agent) = [english_agent; urdu_agent]
  /\ handoffs (agent triage_agent) = [career_agent; finance_agent; tech_agent]
  /\ (forall a, a <> router_agent -> a <> triage_agent -> handoffs (agent a) = [])
  /\ (forall a, ~ clos_trans AgentRef handoff a a)
  /\ (forall l, chain l -> transfers l <= 1)
  /\ (forall l depth_limit, 1 <= depth_limit -> chain l -> transfers l <= depth_limit).
Proof.
  assert (Hchain : forall l, chain l -> transfers l <= 1).
  { intros [|a [|b [|c l]]]; cbn [chain transfers length pred]; try lia.
    intros (Hab & Hbc & _). destruct (handoff_no_second_step _ _ _ Hab Hbc). }
  repeat split.
  - intros a Hr Ht. destruct a; try reflexivity; congruence.
  - intros a Hcyc. apply handoff_clos_trans_step in Hcyc.
    exact (handoff_no_second_step _ _ _ Hcyc Hcyc).
  - exact Hchain.
  - intros l depth_limit Hd Hl. apply Hchain in Hl. lia.
Qed.

Lemma handoff_graph_acyclic_witness :
  chain [triage_agent; finance_agent]
  /\ transfers [triage_agent; finance_agent] <= 1
  /\ transfers [triage_agent; finance_agent] <= 5.
Proof.
  assert (Hc : chain [triage_agent; finance_agent]).
  { cbn [chain]. split; [|exact I]. unfold handoff. cbn [agent handoffs In]. tauto. }
  split; [exact Hc|]. split.
  - exact (proj1 (proj2 (proj2 (proj2 (proj2 handoff_graph_acyclic)))) _ Hc).
  - apply (proj2 (proj2 (proj2 (proj2 (proj2 handoff_graph_acyclic)))) _ 5);
      [lia|exact Hc].
Defined.

(** ** Searching and slicing *)

Lemma find_from_absent (c : char) (s : str) (i : Z) :
  c ∉ s -> find_from c s i = (-1)%Z.
Proof.
  revert i. induction s as [|x s IH]; intros i Hc; [reflexivity|].
  apply not_elem_of_cons in Hc as [Hx Hs]. cbn [find_from].
  destruct (N.eqb_spec x c); [congruence|]. now apply IH.
Qed.

Lemma find_from_first (c : char) (pre post : str) (i : Z) :
  c ∉ pre -> find_from c (pre ++ c :: post) i = (i + Z.of_nat (length pre))%Z.
Proof.
  revert i. induction pre as [|x pre IH]; intros i Hc; cbn [app find_from length].
  - rewrite N.eqb_refl. lia.
  - apply not_elem_of_cons in Hc as [Hx Hs].
    destruct (N.eqb_spec x c); [congruence|]. rewrite IH by assumption. lia.
Qed.

Lemma rfind_from_absent (c : char) (s : str) (i last : Z) :
  c ∉ s -> rfind_from c s i last = last.
Proof.
  revert i last. induction s as [|x s IH]; intros i last Hc; [reflexivity|].
  apply not_elem_of_cons in Hc as [Hx Hs]. cbn [rfind_from].
  destruct (N.eqb_spec x c); [congruence|]. now apply IH.
Qed.

Lemma rfind_from_last (c : char) (pre post : str) (i last : Z) :
  c ∉ post ->
  rfind_from c (pre ++ c :: post) i last = (i + Z.of_nat (length pre))%Z.
Proof.
  intros Hc. revert i last.
  induction pre as [|x pre IH]; intros i last; cbn [app rfind_from length].
  - rewrite N.eqb_refl, rfind_from_absent by assumption. lia.
  - rewrite IH. lia.
Qed.

Lemma rfind_from_app_absent (c : char) (pre post : str) (i last : Z) :
  c ∉ post -> rfind_from c (pre ++ post) i last = rfind_from c pre i last.
Proof.
  intros Hc. revert i last.
  induction pre as [|x pre IH]; intros i last; cbn [app rfind_from].
  - now apply rfind_from_absent.
  - apply IH.
Qed.

Lemma rfind_from_range (c : char) (s : str) (i last : Z) :
  (last < i)%Z ->
  (last <= rfind_from c s i last < i + Z.of_nat (length s))%Z.
Proof.
  revert i last. induction s as [|x s IH]; intros i last Hl; cbn [rfind_from length].
  - lia.
  - destruct (N.eqb_spec x c).
    + specialize (IH (i + 1)%Z i). lia.
    + specialize (IH (i + 1)%Z last). lia.
Qed.

Lemma slice_middle (pre mid post : str) :
  slice (pre ++ mid ++ post) (Z.of_nat (length pre))
        (Z.of_nat (length pre) + Z.of_nat (length mid))
  = mid.
Proof.
  unfold slice, clamp_index. rewrite !length_app.
  destruct (Z.ltb_spec (Z.of_nat (length pre)) 0); [lia|].
  destruct (Z.ltb_spec (Z.of_nat (length pre) + Z.of_nat (length mid)) 0); [lia|].
  rewrite !Z.min_l by lia.
  replace (Z.to_nat (Z.of_nat (length pre) + Z.of_nat (length mid) - Z.of_nat (length pre)))
    with (length mid + 0) by lia.
  rewrite Nat2Z.id, skipn_app, Nat.sub_diag, skipn_all, skipn_O, app_nil_l.
  rewrite firstn_app_2, firstn_O. apply app_nil_r.
Qed.

Lemma slice_backwards (s : str) (a b : Z) :
  (0 <= b <= a)%Z -> slice s a b = [].
Proof.
  intros Hab. unfold slice, clamp_index.
  destruct (Z.ltb_spec a 0); [lia|]. destruct (Z.ltb_spec b 0); [lia|].
  replace (Z.to_nat _) with 0; [reflexivity|]. lia.
Qed.

(** ** The structured-output path *)

Import StructuredOutput.

Lemma extract_json_no_brace (raw_output : str) :
  0x7B%N ∉ raw_output -> extract_json raw_output = raw_output.
Proof.
  intros Hc. unfold extract_json, find. now rewrite find_from_absent.
Qed.

Lemma extract_json_braces (pre mid post : str) :
  0x7B%N ∉ pre -> 0x7D%N ∉ post ->
  extract_json (pre ++ [0x7B%N] ++ mid ++ [0x7D%N] ++ post)
  = [0x7B%N] ++ mid ++ [0x7D%N].
Proof.
  intros Hpre Hpost. unfold extract_json, find, rfind.
  cbn [app]. rewrite find_from_first by assumption.
  replace (pre ++ 0x7B%N :: mid ++ 0x7D%N :: post)
    with ((pre ++ 0x7B%N :: mid) ++ 0x7D%N :: post)
    by (now rewrite <- app_assoc).
  rewrite rfind_from_last by assumption.
  rewrite length_app. cbn [length].
  destruct (Z.eqb_spec (0 + Z.of_nat (length pre)) (-1)); [lia|].
  destruct (Z.eqb_spec (0 + Z.of_nat (length pre + S (length mid)) + 1) (-1)); [lia|].
  cbn [negb andb].
  replace ((pre ++ 0x7B%N :: mid) ++ 0x7D%N :: post)
    with (pre ++ (0x7B%N :: mid ++ [0x7D%N]) ++ post)
    by (cbn [app]; now rewrite <- !app_assoc).
  replace (0 + Z.of_nat (length pre))%Z with (Z.of_nat (length pre)) by lia.
  replace (0 + Z.of_nat (length pre + S (length mid)) + 1)%Z
    with (Z.of_nat (length pre) + Z.of_nat (length (0x7B%N :: mid ++ [0x7D%N])))%Z.
  - apply slice_middle.
  - cbn [length]. rewrite length_app. cbn [length]. lia.
Qed.

Lemma extract_json_unclosed (pre post : str) :
  0x7B%N ∉ pre -> 0x7D%N ∉ post ->
  extract_json (pre ++ 0x7B%N :: post) = [].
Proof.
  intros Hpre Hpost. unfold extract_json, find, rfind.
  rewrite find_from_first by assumption.
  rewrite rfind_from_app_absent
    by (apply not_elem_of_cons; split; [discriminate|assumption]).
  pose proof (rfind_from_range 0x7D%N pre 0 (-1) ltac:(lia)) as Hr.
  destruct (Z.eqb_spec (0 + Z.of_nat (length pre)) (-1)); [lia|].
  destruct (Z.eqb_spec (rfind_from 0x7D%N pre 0 (-1) + 1) (-1)); [lia|].
  cbn [negb andb]. apply slice_backwards. lia.
Qed.

Lemma extract_json_located (raw_output : str) :
  located raw_output (extract_json raw_output).
Proof.
  destruct (decide (0x7B%N ∈ raw_output)) as [Hopen|Hopen].
  - apply list_elem_of_split_l in Hopen as (pre & rest & Hraw & Hpre).
    destruct (decide (0x7D%N ∈ rest)) as [Hclose|Hclose].
    + apply list_elem_of_split_r in Hclose as (mid & post & Hrest & Hpost).
      subst rest. subst raw_output.
      change (pre ++ 0x7B%N :: mid ++ 0x7D%N :: post)
        with (pre ++ [0x7B%N] ++ mid ++ [0x7D%N] ++ post).
      rewrite extract_json_braces by assumption.
      now apply (located_braces _ pre mid post).
    + subst raw_output. rewrite extract_json_unclosed by assumption.
      now apply (located_nothing _ pre rest).
  - rewrite extract_json_no_brace by assumption. now apply located_whole.
Qed.

Lemma validate_field_inr {A} (name : str) (validate : JSON -> option A)
    (members : list (str * JSON)) (a : A) :
  validate_field name validate members = inr a <-> field_ok name validate members a.
Proof.
  unfold validate_field, field_ok. split.
  - destruct (member name members) as [v|]; [|discriminate].
    destruct (validate v) as [a'|] eqn:Hv; [|discriminate].
    intros [= <-]. eauto.
  - intros (v & -> & ->). reflexivity.
Qed.

Lemma model_validate_cases `{Pydantic} (members : list (str * JSON)) :
  (exists movie, model_validate (JObj members) = inr movie
                 /\ populated_from members movie
                 /\ field_violations members = [])
  \/ (model_validate (JObj members) = inl (field_violations members)
      /\ field_violations members <> []).
Proof.
  unfold model_validate, field_violations, populated_from.
  destruct (validate_field (py "title") validate_str members) as [e1|t] eqn:H1;
  destruct (validate_field (py "director") validate_str members) as [e2|d] eqn:H2;
  destruct (validate_field (py "year") validate_int members) as [e3|y] eqn:H3;
  destruct (validate_field (py "genre") validate_list_str members) as [e4|g] eqn:H4;
  destruct (validate_field (py "main_actors") validate_list_str members) as [e5|a] eqn:H5;
  destruct (validate_field (py "plot_summary") validate_str members) as [e6|p] eqn:H6;
  destruct (validate_field (py "rating_out_of_10") validate_float members) as [e7|r] eqn:H7;
  cbn [violation app];
  try (right; split; [reflexivity|discriminate]).
  left. eexists. split; [reflexivity|]. cbn [title director year genre main_actors
    plot_summary rating_out_of_10].
  rewrite <- !validate_field_inr. repeat split; assumption.
Qed.

Lemma model_validate_populated `{Pydantic} (members : list (str * JSON))
    (movie : MovieInfo) :
  populated_from members movie -> model_validate (JObj members) = inr movie.
Proof.
  destruct movie as [t d y g a p r]. unfold populated_from.
  cbn [title director year genre main_actors plot_summary rating_out_of_10].
  rewrite <- !validate_field_inr. intros (H1 & H2 & H3 & H4 & H5 & H6 & H7).
  unfold model_validate. rewrite H1, H2, H3, H4, H5, H6, H7. reflexivity.
Qed.

Lemma model_validate_inr `{Pydantic} (j : JSON) (movie : MovieInfo) :
  model_validate j = inr movie <->
  exists members, j = JObj members /\ populated_from members movie.
Proof.
  split.
  - destruct j as [| | | | | |members]; try discriminate.
    intros Hm. exists members. split; [reflexivity|].
    destruct (model_validate_cases members) as [(m & Hm' & Hp & _)|[Hm' _]];
      congruence.
  - intros (members & -> & Hp). now apply model_validate_populated.
Qed.

Lemma model_validate_inl `{Pydantic} (j : JSON) (errors : list Violation) :
  model_validate j = inl errors -> errors <> [].
Proof.
  destruct j as [| | | | | |members]; try (intros [= <-]; discriminate).
  destruct (model_validate_cases members) as [(m & Hm & _)|[Hm Hne]];
    congruence.
Qed.

Lemma parse_final_output_cases `{Pydantic} (final_output : str) (w : World) :
  parse_final_output final_output w
  = match json_loads (extract_json (strip final_output)) with
    | None => reraised [InvalidJSON] (strip final_output) w
    | Some j =>
      match model_validate j with
      | inr movie => (Return movie, w)
      | inl errors => reraised errors (strip final_output) w
      end
    end.
Proof.
  unfold parse_final_output, try_except, model_validate_json, reraised.
  destruct (json_loads (extract_json (strip final_output))) as [j|];
    [destruct (model_validate j)|]; reflexivity.
Qed.

(** C3.  The structured-output path works on the stripped final output.
    For every such text the payload is located as the claim says: the whole
    text when it has no opening brace, the text from the first opening brace
    through the last closing brace when one follows, and nothing when none
    follows.  The path returns a [MovieInfo] exactly when the payload parses
    to an object in which every one of the seven fields is present and of
    its declared type, and then every field holds the validated member; in
    every other case it prints the diagnostic line and raises.  There is no
    third outcome. *)
Theorem structured_output_all_or_nothing `{Pydantic} (final_output : str) (w : World) :
  let raw_output := strip final_output in
  let payload := extract_json raw_output in
  located raw_output payload
  /\ (forall movie w',
        parse_final_output final_output w = (Return movie, w') <->
        w' = w
        /\ exists members,
             json_loads payload = Some (JObj members)
             /\ populated_from members movie)
  /\ ((exists movie, parse_final_output final_output w = (Return movie, w))
      \/ (exists errors,
            errors <> []
            /\ parse_final_output final_output w
               = (Raise (ValidationError errors),
                  emit (error_line (ValidationError errors) raw_output ++ [0x0A%N]) w))).
Proof.
  intros raw_output payload. split; [|split].
  - apply extract_json_located.
  - intros movie w'. rewrite parse_final_output_cases.
    fold raw_output. fold payload. unfold reraised.
    destruct (json_loads payload) as [j|].
    + destruct (model_validate j) as [errors|m] eqn:Hj.
      * split; [discriminate|]. intros (_ & members & [= ->] & Hp).
        apply model_validate_populated in Hp. congruence.
      * split.
        -- intros [= -> <-]. split; [reflexivity|].
           apply model_validate_inr in Hj as (members & -> & Hp). eauto.
        -- intros (-> & members & [= ->] & Hp).
           apply model_validate_populated in Hp. congruence.
    + split; [discriminate|]. intros (_ & members & [=] & _).
  - rewrite parse_final_output_cases. fold raw_output. fold payload. unfold reraised.
    destruct (json_loads payload) as [j|].
    + destruct (model_validate j) as [errors|m] eqn:Hj.
      * right. exists errors. split; [|reflexivity].
        now apply model_validate_inl in Hj.
      * left. eauto.
    + right. exists [InvalidJSON]. split; [discriminate|reflexivity].
Qed.

Lemma structured_output_all_or_nothing_witness :
  @parse_final_output strict_pydantic inception_output world0
  = (Return inception, world0).
Proof.
  destruct (@structured_output_all_or_nothing strict_pydantic inception_output world0)
    as (_ & Hiff & _).
  apply Hiff. split; [reflexivity|]. exists inception_members. split.
  - vm_compute. reflexivity.
  - unfold populated_from, field_ok.
    repeat split; eexists; (split; [vm_compute; reflexivity|vm_compute; reflexivity]).
Defined.

Lemma violation_validate_field {A} (name : str) (validate : JSON -> option A)
    (members : list (str * JSON)) :
  violation (validate_field name validate members)
  = match member name members with
    | None => [MissingField name]
    | Some v => if accepted (validate v) then [] else [TypeMismatch name]
    end.
Proof.
  unfold validate_field. destruct (member name members) as [v|]; [|reflexivity].
  destruct (validate v); reflexivity.
Qed.

(** The violation, if any, of one row of the schema. *)
Lemma field_violations_schema `{Pydantic} (members : list (str * JSON)) :
  field_violations members
  = flat_map (fun '(name, t) =>
                match member name members with
                | None => [MissingField name]
                | Some v => if has_type t v then [] else [TypeMismatch name]
                end)
             MovieInfo_schema.
Proof.
  unfold field_violations, MovieInfo_schema. rewrite !violation_validate_field.
  cbn [flat_map has_type]. rewrite app_nil_r. reflexivity.
Qed.

Lemma field_violations_missing `{Pydantic} (members : list (str * JSON))
    (name : str) (t : FieldType) :
  In (name, t) MovieInfo_schema -> member name members = None ->
  In (MissingField name) (field_violations members).
Proof.
  intros Hin Hm. rewrite field_violations_schema. apply in_flat_map.
  exists (name, t). split; [exact Hin|]. rewrite Hm. now left.
Qed.

Lemma field_violations_mismatch `{Pydantic} (members : list (str * JSON))
    (name : str) (t : FieldType) (v : JSON) :
  In (name, t) MovieInfo_schema -> member name members = Some v ->
  has_type t v = false ->
  In (TypeMismatch name) (field_violations members).
Proof.
  intros Hin Hm Ht. rewrite field_violations_schema. apply in_flat_map.
  exists (name, t). split; [exact Hin|]. rewrite Hm, Ht. now left.
Qed.

Lemma model_validate_violations `{Pydantic} (members : list (str * JSON)) :
  field_violations members <> [] ->
  model_validate (JObj members) = inl (field_violations members).
Proof.
  intros Hne.
  destruct (model_validate_cases members) as [(m & _ & _ & Hnil)|[Hm _]];
    [contradiction|exact Hm].
Qed.

Lemma banner_returns (w : World) : banner w = (Return tt, snd (banner w)).
Proof. reflexivity. Qed.

(** C4.  On the stripped final output and its extracted payload: when the
    payload does not parse, when it parses to something other than an
    object, when a required field (for instance [year]) is missing from the
    object or when a field is not of its declared type, the path prints the
    diagnostic line (the text of the exception, then the raw output) and
    raises the validation error, which names the violation.  [main] then
    ends with that exception right after the diagnostic line: the report of
    a structured result is never printed. *)
Theorem output_validation_fails `{PyRuntime} `{Pydantic} (final_output : str) (w : World) :
  let raw_output := strip final_output in
  let payload := extract_json raw_output in
  let diagnostic e :=
    py "  [Error Parsing JSON] " ++ str_of_exception e ++ [0x0A%N]
    ++ py "  Raw Output: " ++ raw_output in
  let failed (A : Type) errors : Outcome A * World :=
    (Raise (ValidationError errors),
     emit (diagnostic (ValidationError errors) ++ [0x0A%N]) w) in
  (json_loads payload = None ->
     parse_final_output final_output w = failed MovieInfo [InvalidJSON])
  /\ (forall j, json_loads payload = Some j -> (forall members, j <> JObj members) ->
        parse_final_output final_output w = failed MovieInfo [NotAnObject])
  /\ (forall members name t,
        json_loads payload = Some (JObj members) ->
        In (name, t) MovieInfo_schema ->
        (member name members = None ->
           exists errors, In (MissingField name) errors
                          /\ parse_final_output final_output w = failed MovieInfo errors)
        /\ (forall v, member name members = Some v -> has_type t v = false ->
              exists errors, In (TypeMismatch name) errors
                             /\ parse_final_output final_output w = failed MovieInfo errors))
  /\ (forall errors Runner_run w0,
        parse_final_output final_output w = failed MovieInfo errors ->
        Runner_run user_input (snd (banner w0)) = (Return final_output, w) ->
        main Runner_run w0 = failed unit errors).
Proof.
  intros raw_output payload diagnostic failed.
  assert (Hobj : forall members e,
             json_loads payload = Some (JObj members) ->
             In e (field_violations members) ->
             exists errors, In e errors
                            /\ parse_final_output final_output w = failed MovieInfo errors).
  { intros members e Hj He. exists (field_violations members). split; [exact He|].
    rewrite parse_final_output_cases. fold raw_output. fold payload.
    rewrite Hj, model_validate_violations; [reflexivity|].
    intros Hnil. rewrite Hnil in He. exact He. }
  split; [|split; [|split]].
  - intros Hj. rewrite parse_final_output_cases. fold raw_output. fold payload.
    rewrite Hj. reflexivity.
  - intros j Hj Hno. rewrite parse_final_output_cases. fold raw_output. fold payload.
    rewrite Hj. destruct j; try reflexivity. now destruct (Hno members).
  - intros members name t Hj Hin. split.
    + intros Hm. apply (Hobj members _ Hj).
      now apply (field_violations_missing members name t).
    + intros v Hm Ht. apply (Hobj members _ Hj).
      now apply (field_violations_mismatch members name t v).
  - intros errors Runner_run w0 Hfail Hrun.
    unfold main, bind. rewrite banner_returns, Hrun, Hfail. reflexivity.
Qed.

Lemma output_validation_fails_witness :
  exists errors,
    In (MissingField (py "year")) errors
    /\ @parse_final_output strict_pydantic no_year_output world0
       = (Raise (ValidationError errors),
          emit ((py "  [Error Parsing JSON] "
                 ++ render_exception (ValidationError errors) ++ [0x0A%N]
                 ++ py "  Raw Output: " ++ strip no_year_output) ++ [0x0A%N])
               world0).
Proof.
  destruct (@output_validation_fails ascii_runtime strict_pydantic no_year_output world0)
    as (_ & _ & Hfield & _).
  epose proof (Hfield _ (py "year") TInt) as [Hmissing _].
  - vm_compute. reflexivity.
  - cbn [In MovieInfo_schema]. tauto.
  - apply Hmissing. vm_compute. reflexivity.
Defined.

(** ** The input guardrail *)

Import Guardrails.

Lemma phase_blocked_iff (decisions : list GuardrailFunctionOutput) :
  phase_blocked decisions = true
  <-> exists d, In d decisions /\ tripwire_triggered d = true.
Proof. unfold phase_blocked. apply existsb_exists. Qed.

Lemma input_phase_blocked_study `{AgentsSdk} (input : RunInput) (w : World) :
  input_phase_blocked study_assistant input w
  = match block_harmful_input input w with
    | (Return out, w') => (Return (tripwire_triggered out), w')
    | (Raise _, w') => (Return false, w')
    end.
Proof.
  unfold input_phase_blocked.
  cbn [agent input_guardrails invoke_guardrails guardrail_function].
  unfold invoke_guardrail, bind, try_except, ret.
  cbn [guardrail_function].
  destruct (block_harmful_input input w) as [[out|e] w'];
    cbn [phase_blocked existsb]; [rewrite orb_false_r|]; reflexivity.
Qed.

Lemma block_harmful_input_returns `{AgentsSdk} (input : RunInput) (w w' : World)
    (out : GuardrailFunctionOutput) :
  block_harmful_input input w = (Return out, w') ->
  tripwire_triggered out = is_off_topic (output_info out)
  /\ exists w1, run_classifier (user_text input) w = (Return (output_info out), w1).
Proof.
  unfold block_harmful_input, bind.
  destruct (run_classifier (user_text input) w) as [[decision|e] w1];
    [|discriminate].
  unfold print, write, ret. intros [= <- _]. split; [reflexivity|]. eauto.
Qed.

(** C2.  The decisions of one phase are combined by a logical OR on the
    tripwire flag: the phase is blocked exactly when some decision has its
    tripwire set, whatever the others say, so an allow and a block give a
    block.  The Study Assistant declares the single input guardrail
    [block_harmful_input]; its input phase is blocked exactly when that
    function returns with [tripwire_triggered] set, and the flag it returns
    is the [is_off_topic] field of the classifier's decision. *)
Theorem input_phase_blocked_or `{AgentsSdk} (input : RunInput) (w : World) :
  (forall decisions,
     phase_blocked decisions = true
     <-> exists d, In d decisions /\ tripwire_triggered d = true)
  /\ (forall allow block,
        tripwire_triggered allow = false -> tripwire_triggered block = true ->
        phase_blocked [allow; block] = true /\ phase_blocked [block; allow] = true)
  /\ input_guardrails (agent study_assistant) = [guardrail_block_harmful_input]
  /\ (fst (input_phase_blocked study_assistant input w) = Return true
      <-> exists out,
            fst (block_harmful_input input w) = Return out
            /\ tripwire_triggered out = true)
  /\ (forall out w',
        block_harmful_input input w = (Return out, w') ->
        tripwire_triggered out = is_off_topic (output_info out)
        /\ exists w1,
             run_classifier (user_text input) w = (Return (output_info out), w1)).
Proof.
  split; [exact phase_blocked_iff|]. split; [|split; [reflexivity|split]].
  - intros allow block Ha Hb. unfold phase_blocked. cbn [existsb].
    rewrite Ha, Hb. split; reflexivity.
  - rewrite input_phase_blocked_study.
    destruct (block_harmful_input input w) as [[out|e] w']; cbn [fst]; split.
    + intros [= Ht]. eauto.
    + intros (out' & [= <-] & Ht). now rewrite Ht.
    + discriminate.
    + intros (out' & [=] & _).
  - intros out w'. apply block_harmful_input_returns.
Qed.

Lemma input_phase_blocked_or_witness :
  fst (@input_phase_blocked keyword_sdk study_assistant
         (@InputText keyword_sdk harmful_message) world0)
  = Return true.
Proof.
  apply (proj1 (proj2 (proj2 (proj2
           (@input_phase_blocked_or keyword_sdk
              (@InputText keyword_sdk harmful_message) world0))))).
  eexists. split; vm_compute; reflexivity.
Defined.

(** ** More on the BMI tool *)

(** Facts about binary64 numbers, through their specification. *)

Lemma SFcompare_refl_finite (s : bool) (m : positive) (e : Z) :
  SFcompare (S754_finite s m e) (S754_finite s m e) = Some Eq.
Proof.
  cbn [SFcompare]. rewrite Z.compare_refl.
  assert (Hm : Pos.compare_cont Eq m m = Eq) by apply Pos.compare_refl.
  rewrite Hm. destruct s; reflexivity.
Qed.

Lemma float_is_nan_spec (x : float) :
  PrimFloat.is_nan x = true -> Prim2SF x = S754_nan.
Proof.
  unfold PrimFloat.is_nan. rewrite FloatAxioms.eqb_spec. unfold SFeqb.
  destruct (Prim2SF x) as [s|s| |s m e]; try reflexivity;
    try (destruct s; discriminate).
  rewrite SFcompare_refl_finite. discriminate.
Qed.

Lemma float_leb_zero_false (x : float) :
  (x <=? 0)%float = false ->
  Prim2SF x = S754_nan \/ Prim2SF x = S754_infinity false
  \/ exists m e, Prim2SF x = S754_finite false m e.
Proof.
  rewrite FloatAxioms.leb_spec. unfold SFleb.
  change (Prim2SF 0) with (S754_zero false).
  destruct (Prim2SF x) as [s|s| |s m e]; cbn [SFcompare]; try discriminate; auto.
  - destruct s; [discriminate|auto].
  - destruct s; [discriminate|eauto].
Qed.

Lemma float_is_infinity_spec (x : float) :
  PrimFloat.is_infinity x = true -> exists s, Prim2SF x = S754_infinity s.
Proof.
  unfold PrimFloat.is_infinity.
  rewrite FloatAxioms.eqb_spec, FloatAxioms.abs_spec. unfold SFeqb.
  change (Prim2SF infinity) with (S754_infinity false).
  destruct (Prim2SF x) as [s|s| |s m e]; cbn [SFabs SFcompare]; try discriminate.
  eauto.
Qed.

Lemma float_is_infinity_finite (x : float) (s : bool) (m : positive) (e : Z) :
  Prim2SF x = S754_finite s m e -> PrimFloat.is_infinity x = false.
Proof.
  intros Hx. unfold PrimFloat.is_infinity.
  rewrite FloatAxioms.eqb_spec, FloatAxioms.abs_spec, Hx. reflexivity.
Qed.

Lemma float_is_infinity_inf (x : float) (s : bool) :
  Prim2SF x = S754_infinity s -> PrimFloat.is_infinity x = true.
Proof.
  intros Hx. unfold PrimFloat.is_infinity.
  rewrite FloatAxioms.eqb_spec, FloatAxioms.abs_spec, Hx. reflexivity.
Qed.

Lemma float_eqb_zero_spec (x : float) :
  (x =? 0)%float = true -> exists s, Prim2SF x = S754_zero s.
Proof.
  rewrite FloatAxioms.eqb_spec. unfold SFeqb.
  change (Prim2SF 0) with (S754_zero false).
  destruct (Prim2SF x) as [s|s| |s m e]; cbn [SFcompare]; try discriminate; eauto.
  - destruct s; discriminate.
  - destruct s; discriminate.
Qed.

Lemma float_eqb_one_spec (x : float) (m : positive) (e : Z) :
  Prim2SF x = S754_finite false m e -> (x =? 1)%float = true -> x = 1%float.
Proof.
  intros Hx. rewrite FloatAxioms.eqb_spec, Hx. unfold SFeqb.
  change (Prim2SF 1) with (S754_finite false 4503599627370496 (-52)).
  cbn [SFcompare]. destruct (Z.compare_spec e (-52)) as [->| |]; try discriminate.
  destruct (Pos.compare_cont Eq m 4503599627370496) eqn:Hm; try discriminate.
  apply Pos.compare_eq in Hm. subst m. intros _.
  apply Prim2SF_inj. rewrite Hx. reflexivity.
Qed.

Lemma float_abs_nonnegative (x : float) (m : positive) (e : Z) :
  Prim2SF x = S754_finite false m e -> PrimFloat.abs x = x.
Proof.
  intros Hx. apply Prim2SF_inj. rewrite FloatAxioms.abs_spec, Hx. reflexivity.
Qed.

(** The square [float_pow_2] returns, for a height that passed the guard. *)
Lemma float_pow_2_square (h : float) (w : World) :
  (h <=? 0)%float = false ->
  PrimFloat.is_infinity h = true \/ PrimFloat.is_infinity (h * h) = false ->
  float_pow_2 h w = (Return (h * h)%float, w).
Proof.
  intros Hguard Hsq. unfold float_pow_2.
  destruct (PrimFloat.is_nan h) eqn:Hnan.
  { apply float_is_nan_spec in Hnan. unfold ret. repeat f_equal.
    apply Prim2SF_inj. rewrite FloatAxioms.mul_spec, Hnan. reflexivity. }
  apply float_leb_zero_false in Hguard as [Hx|[Hx|(m & e & Hx)]].
  - unfold PrimFloat.is_nan in Hnan. rewrite FloatAxioms.eqb_spec, Hx in Hnan.
    discriminate.
  - rewrite (float_is_infinity_inf h false Hx). unfold ret. repeat f_equal.
    apply Prim2SF_inj. rewrite FloatAxioms.abs_spec, FloatAxioms.mul_spec, Hx.
    reflexivity.
  - rewrite (float_is_infinity_finite h _ _ _ Hx) in *.
    destruct Hsq as [Hsq|Hsq]; [discriminate|].
    assert (Hzero : (h =? 0)%float = false).
    { rewrite FloatAxioms.eqb_spec, Hx. reflexivity. }
    rewrite Hzero. cbv zeta. rewrite (float_abs_nonnegative h m e Hx).
    destruct (h =? 1)%float eqn:Hone.
    + apply (float_eqb_one_spec h m e Hx) in Hone. subst h. reflexivity.
    + rewrite Hsq. reflexivity.
Qed.

Lemma float_pow_2_overflow (h : float) (w : World) :
  (h <=? 0)%float = false ->
  PrimFloat.is_infinity h = false -> PrimFloat.is_infinity (h * h) = true ->
  float_pow_2 h w
  = (Raise (OverflowError (py "(34, 'Numerical result out of range')")), w).
Proof.
  intros Hguard Hfin Hsq. unfold float_pow_2.
  apply float_leb_zero_false in Hguard as [Hx|[Hx|(m & e & Hx)]].
  - apply float_is_infinity_spec in Hsq as [s Hs].
    rewrite FloatAxioms.mul_spec, Hx in Hs. discriminate.
  - rewrite (float_is_infinity_inf h false Hx) in Hfin. discriminate.
  - assert (Hnan : PrimFloat.is_nan h = false).
    { unfold PrimFloat.is_nan. rewrite FloatAxioms.eqb_spec, Hx. unfold SFeqb.
      now rewrite SFcompare_refl_finite. }
    assert (Hzero : (h =? 0)%float = false).
    { rewrite FloatAxioms.eqb_spec, Hx. reflexivity. }
    rewrite Hnan, Hfin, Hzero. cbv zeta. rewrite (float_abs_nonnegative h m e Hx).
    destruct (h =? 1)%float eqn:Hone.
    + apply (float_eqb_one_spec h m e Hx) in Hone. subst h. discriminate.
    + rewrite Hsq. reflexivity.
Qed.



Lemma calculate_bmi_returns_string `{PyRuntime} (weight_kg height_m : float) (w : World) :
  (height_m <=? 0)%float = true
  \/ ((height_m <=? 0)%float = false
      /\ (PrimFloat.is_infinity height_m = true
          \/ PrimFloat.is_infinity (height_m * height_m) = false)
      /\ (height_m * height_m =? 0)%float = false) ->
  exists s, calculate_bmi weight_kg height_m w = (Return s, w).
Proof.
  unfold calculate_bmi, bind. intros [Hguard|(Hguard & Hsq & Hnz)]; rewrite Hguard.
  - eexists. reflexivity.
  - rewrite (float_pow_2_square _ _ Hguard Hsq). unfold float_truediv.
    rewrite Hnz. eexists. reflexivity.
Qed.

(** X2.  The heights on which [calculate_bmi] raises, whatever the weight:
    a height that passes the guard and whose square underflows to zero gives
    [ZeroDivisionError]; a finite height that passes the guard and whose
    square overflows gives [OverflowError].  It raises on no other input
    and nothing else, and the state is as it was. *)
Theorem calculate_bmi_out_of_range `{PyRuntime} (weight_kg height_m : float) (w : World) :
  ((height_m <=? 0)%float = false ->
   (height_m * height_m =? 0)%float = true ->
     calculate_bmi weight_kg height_m w
     = (Raise (ZeroDivisionError (py "float division by zero")), w))
  /\ ((height_m <=? 0)%float = false ->
      PrimFloat.is_infinity height_m = false ->
      PrimFloat.is_infinity (height_m * height_m) = true ->
      calculate_bmi weight_kg height_m w
      = (Raise (OverflowError (py "(34, 'Numerical result out of range')")), w))
  /\ (forall e w',
        calculate_bmi weight_kg height_m w = (Raise e, w') ->
        w' = w
        /\ (height_m <=? 0)%float = false
        /\ (((height_m * height_m =? 0)%float = true
             /\ e = ZeroDivisionError (py "float division by zero"))
            \/ (PrimFloat.is_infinity height_m = false
                /\ PrimFloat.is_infinity (height_m * height_m) = true
                /\ e = OverflowError (py "(34, 'Numerical result out of range')")))).
Proof.
  assert (Hzero : (height_m <=? 0)%float = false ->
                  (height_m * height_m =? 0)%float = true ->
                  calculate_bmi weight_kg height_m w
                  = (Raise (ZeroDivisionError (py "float division by zero")), w)).
  { intros Hguard Hz. unfold calculate_bmi, bind. rewrite Hguard.
    rewrite (float_pow_2_square _ _ Hguard).
    - unfold float_truediv. rewrite Hz. reflexivity.
    - right. apply float_eqb_zero_spec in Hz as [s Hs].
      unfold PrimFloat.is_infinity.
      rewrite FloatAxioms.eqb_spec, FloatAxioms.abs_spec, Hs. reflexivity. }
  assert (Hover : (height_m <=? 0)%float = false ->
                  PrimFloat.is_infinity height_m = false ->
                  PrimFloat.is_infinity (height_m * height_m) = true ->
                  calculate_bmi weight_kg height_m w
                  = (Raise (OverflowError (py "(34, 'Numerical result out of range')")), w)).
  { intros Hguard Hfin Hsq. unfold calculate_bmi, bind. rewrite Hguard.
    rewrite (float_pow_2_overflow _ _ Hguard Hfin Hsq). reflexivity. }
  split; [exact Hzero|]. split; [exact Hover|].
  intros e w' Hraise.
  destruct (height_m <=? 0)%float eqn:Hguard.
  { destruct (calculate_bmi_returns_string weight_kg height_m w (or_introl Hguard))
      as [s Hs]. congruence. }
  destruct (height_m * height_m =? 0)%float eqn:Hz.
  { rewrite (Hzero eq_refl eq_refl) in Hraise. injection Hraise as <- <-. auto. }
  destruct (PrimFloat.is_infinity height_m) eqn:Hinf.
  { destruct (calculate_bmi_returns_string weight_kg height_m w) as [s Hs];
      [right; rewrite Hguard, Hz, Hinf; auto|congruence]. }
  destruct (PrimFloat.is_infinity (height_m * height_m)) eqn:Hsq.
  - rewrite (Hover eq_refl eq_refl eq_refl) in Hraise.
    injection Hraise as <- <-. auto 6.
  - destruct (calculate_bmi_returns_string weight_kg height_m w) as [s Hs];
      [right; rewrite Hguard, Hz, Hsq; auto|congruence].
Qed.

Lemma calculate_bmi_out_of_range_witness :
  @calculate_bmi ascii_runtime 55.5 0x1p-600 world0
  = (Raise (ZeroDivisionError (py "float division by zero")), world0)
  /\ @calculate_bmi ascii_runtime 55.5 0x1p600 world0
     = (Raise (OverflowError (py "(34, 'Numerical result out of range')")), world0).
Proof.
  split.
  - apply (proj1 (@calculate_bmi_out_of_range ascii_runtime 55.5 0x1p-600 world0));
      reflexivity.
  - apply (proj1 (proj2 (@calculate_bmi_out_of_range ascii_runtime 55.5 0x1p600 world0)));
      reflexivity.
Defined.

(** ** More on the payload *)

Lemma lstrip_suffix (s : str) : exists ws, s = ws ++ lstrip s.
Proof.
  induction s as [|c s [ws IH]]; [now exists []|]. cbn [lstrip].
  destruct (isspace c).
  - exists (c :: ws). cbn [app]. now rewrite <- IH.
  - now exists [].
Qed.

Lemma rstrip_prefix (s : str) : exists ws, s = rstrip s ++ ws.
Proof.
  unfold rstrip. destruct (lstrip_suffix (rev s)) as [ws Hws].
  exists (rev ws). rewrite <- rev_app_distr, <- Hws. now rewrite rev_involutive.
Qed.

Lemma lstrip_app_nonspace (p r : str) (c : char) :
  isspace c = false -> lstrip (p ++ c :: r) = lstrip p ++ c :: r.
Proof.
  intros Hc. induction p as [|x p IH]; cbn [app lstrip].
  - now rewrite Hc.
  - destruct (isspace x); [exact IH|reflexivity].
Qed.

Lemma rstrip_app_nonspace (p r : str) (c : char) :
  isspace c = false -> rstrip (p ++ c :: r) = p ++ c :: rstrip r.
Proof.
  intros Hc. unfold rstrip. rewrite rev_app_distr. cbn [rev].
  rewrite <- app_assoc. cbn [app].
  rewrite lstrip_app_nonspace by exact Hc.
  rewrite rev_app_distr. cbn [rev]. rewrite rev_involutive, <- app_assoc.
  reflexivity.
Qed.

Lemma strip_around_braces (prose1 mid prose2 : str) :
  strip (prose1 ++ [0x7B%N] ++ mid ++ [0x7D%N] ++ prose2)
  = lstrip prose1 ++ [0x7B%N] ++ mid ++ [0x7D%N] ++ rstrip prose2.
Proof.
  unfold strip. cbn [app].
  rewrite lstrip_app_nonspace by reflexivity.
  rewrite rstrip_app_nonspace by reflexivity.
  rewrite rstrip_app_nonspace by reflexivity. reflexivity.
Qed.

Lemma extract_json_wrapped (prose1 mid prose2 : str) :
  0x7B%N ∉ prose1 -> 0x7D%N ∉ prose2 ->
  extract_json (strip (prose1 ++ [0x7B%N] ++ mid ++ [0x7D%N] ++ prose2))
  = [0x7B%N] ++ mid ++ [0x7D%N].
Proof.
  intros H1 H2. rewrite strip_around_braces. apply extract_json_braces.
  - destruct (lstrip_suffix prose1) as [ws Hws]. rewrite Hws in H1.
    intros Hin. apply H1. apply elem_of_app. now right.
  - destruct (rstrip_prefix prose2) as [ws Hws]. rewrite Hws in H2.
    intros Hin. apply H2. apply elem_of_app. now left.
Qed.

(** X3.  Prose, white space or code fences around a JSON object do not
    reach the validator: when the text before the object has no opening
    brace and the text after it has no closing brace, the payload is the
    object itself, and the path returns a movie for the wrapped text exactly
    when it returns that movie for the bare object. *)
Theorem wrapped_object_is_extracted `{Pydantic} (prose1 mid prose2 : str) (w : World) :
  0x7B%N ∉ prose1 -> 0x7D%N ∉ prose2 ->
  let object := [0x7B%N] ++ mid ++ [0x7D%N] in
  extract_json (strip (prose1 ++ object ++ prose2)) = object
  /\ extract_json (strip object) = object
  /\ (forall movie,
        parse_final_output (prose1 ++ object ++ prose2) w = (Return movie, w)
        <-> parse_final_output object w = (Return movie, w)).
Proof.
  intros H1 H2 object.
  assert (Hwrapped : extract_json (strip (prose1 ++ object ++ prose2)) = object).
  { unfold object. rewrite <- !app_assoc. now apply extract_json_wrapped. }
  assert (Hbare : extract_json (strip object) = object).
  { pose proof (extract_json_wrapped [] mid [] ltac:(apply not_elem_of_nil)
                  ltac:(apply not_elem_of_nil)) as Hb.
    unfold object. cbn [app] in *. exact Hb. }
  split; [exact Hwrapped|]. split; [exact Hbare|].
  intros movie. rewrite !parse_final_output_cases, Hwrapped, Hbare.
  unfold reraised.
  destruct (json_loads object) as [j|];
    [destruct (model_validate j)|]; split; intros Heq; try discriminate;
    try exact Heq; injection Heq as <-; reflexivity.
Qed.

Lemma wrapped_object_is_extracted_witness :
  extract_json (strip (py "```json" ++ [0x0A%N] ++ no_year_output ++ [0x0A%N] ++ py "```"))
  = no_year_output.
Proof.
  pose proof (@wrapped_object_is_extracted strict_pydantic
                (py "```json" ++ [0x0A%N])
                (removelast (tl no_year_output))
                ([0x0A%N] ++ py "```") world0) as Hw.
  destruct Hw as (Hw & _).
  - vm_compute. intros Hin. apply list_elem_of_In in Hin. cbn [In] in Hin.
    repeat (destruct Hin as [Hin|Hin]; [discriminate|]). exact Hin.
  - vm_compute. intros Hin. apply list_elem_of_In in Hin. cbn [In] in Hin.
    repeat (destruct Hin as [Hin|Hin]; [discriminate|]). exact Hin.
  - vm_compute in Hw. vm_compute. exact Hw.
Defined.

(** X4.  The payload is always a contiguous piece of the raw output, and
    extracting a second time changes nothing. *)
Theorem extract_json_substring (raw_output : str) :
  (exists before after, raw_output = before ++ extract_json raw_output ++ after)
  /\ extract_json (extract_json raw_output) = extract_json raw_output.
Proof.
  destruct (extract_json_located raw_output) as [Hno|pre mid post Hraw Hpre Hpost
                                                  |pre post Hraw Hpre Hpost].
  - split; [exists [], []; now rewrite app_nil_r|].
    now apply extract_json_no_brace.
  - split.
    + exists pre, post. rewrite Hraw. now rewrite <- !app_assoc.
    + apply (extract_json_braces [] mid []); apply not_elem_of_nil.
  - split; [exists raw_output, []; now rewrite app_nil_r|].
    apply extract_json_no_brace, not_elem_of_nil.
Qed.

(** ** Composition in [main] of the structured-output script *)

Lemma print_movie_returns `{PyRuntime} `{Pydantic} (movie : MovieInfo) (w : World) :
  print_movie movie w = (Return tt, snd (print_movie movie w)).
Proof. reflexivity. Qed.

(** X5.  [main] of the structured-output script completes exactly when the
    run returned a final output whose payload parses to an object holding
    all seven fields with their declared types; the report it then prints
    is the one of the validated movie, printed after everything the run
    itself left on standard output.  In every other case [main] raises: the
    exception of the run, or the validation error. *)
Theorem main_completes_iff_validated `{PyRuntime} `{Pydantic}
    (Runner_run : str -> Py str) (w w' : World) :
  main Runner_run w = (Return tt, w')
  <-> exists final_output w1 members movie,
        Runner_run user_input (snd (banner w)) = (Return final_output, w1)
        /\ json_loads (extract_json (strip final_output)) = Some (JObj members)
        /\ populated_from members movie
        /\ w' = snd (print_movie movie w1).
Proof.
  unfold main, bind. pose proof (banner_returns w) as Hb.
  set (w0 := snd (banner w)) in *. rewrite Hb. clearbody w0. clear Hb.
  destruct (Runner_run user_input w0) as [[final_output|e] w1].
  - rewrite parse_final_output_cases. unfold reraised.
    destruct (json_loads (extract_json (strip final_output))) as [j|] eqn:Hl.
    + destruct (model_validate j) as [errors|movie] eqn:Hj.
      * split; [discriminate|].
        intros (f & w2 & members & m & Hrun & Hl' & Hp & _).
        injection Hrun as <- <-. rewrite Hl in Hl'. injection Hl' as ->.
        apply model_validate_populated in Hp. congruence.
      * rewrite print_movie_returns.
        apply model_validate_inr in Hj as (members & -> & Hp). split.
        -- intros [= <-]. exists final_output, w1, members, movie. auto.
        -- intros (f & w2 & members' & m & Hrun & Hl' & Hp' & ->).
           injection Hrun as <- <-. rewrite Hl in Hl'. injection Hl' as <-.
           apply model_validate_populated in Hp, Hp'.
           assert (m = movie) as -> by congruence. reflexivity.
    + split; [discriminate|].
      intros (f & w2 & members & m & Hrun & Hl' & _).
      injection Hrun as <- <-. rewrite Hl in Hl'. discriminate.
  - split; [discriminate|]. intros (f & w2 & members & m & [=] & _).
Qed.

Lemma main_completes_iff_validated_witness :
  @main ascii_runtime strict_pydantic (fun _ => ret inception_output) world0
  = (Return tt,
     snd (@print_movie ascii_runtime strict_pydantic inception
            (snd (banner world0)))).
Proof.
  apply (@main_completes_iff_validated ascii_runtime strict_pydantic).
  exists inception_output, (snd (banner world0)), inception_members, inception.
  split; [reflexivity|]. split; [vm_compute; reflexivity|]. split; [|reflexivity].
  unfold populated_from, field_ok.
  repeat split; eexists; (split; [vm_compute; reflexivity|vm_compute; reflexivity]).
Defined.

(** ** The consumer of a streamed run *)

Import Runner.

Lemma emit_nil (w : World) : emit [] w = w.
Proof. destruct w. unfold emit. cbn. now rewrite app_nil_r. Qed.

Lemma emit_emit (a b : str) (w : World) : emit b (emit a w) = emit (a ++ b) w.
Proof. unfold emit. cbn. now rewrite app_assoc. Qed.

Lemma print_blocks_emits (blocks : list Block) (w : World) :
  print_blocks blocks w = (Return tt, emit (concat (block_texts blocks)) w).
Proof.
  revert w. induction blocks as [|block rest IH]; intros w.
  - cbn [print_blocks block_texts flat_map concat]. unfold ret. now rewrite emit_nil.
  - cbn [print_blocks block_texts flat_map]. unfold bind, print_block.
    destruct (text block) as [|t].
    + unfold ret. rewrite IH. reflexivity.
    + unfold write. rewrite IH. cbn [app concat]. now rewrite emit_emit.
Qed.

Lemma handle_chunk_emits (chunk : StreamEvent) (w : World) :
  handle_chunk chunk w = (Return tt, emit (concat (chunk_texts chunk)) w).
Proof.
  unfold handle_chunk, chunk_texts.
  destruct (decide (type chunk = py "raw_response_event")) as [_|_];
    [|unfold ret; now rewrite emit_nil].
  destruct (delta (data chunk)) as [|[[|[blocks|]]]];
    first [ apply print_blocks_emits
          | exact (print_blocks_emits [] w)
          | unfold ret; cbn [concat]; now rewrite emit_nil ].
Qed.

Lemma stream_loop_emits (events : list StreamEvent) (w : World) :
  stream_loop events w
  = (Return tt, emit (concat (flat_map chunk_texts events)) w).
Proof.
  revert w. induction events as [|chunk rest IH]; intros w.
  - cbn [stream_loop flat_map concat]. unfold ret. now rewrite emit_nil.
  - cbn [stream_loop flat_map]. unfold bind.
    rewrite handle_chunk_emits, IH, emit_emit, concat_app. reflexivity.
Qed.

Lemma chunk_texts_text_events (deltas : list str) :
  flat_map chunk_texts (map text_event deltas) = deltas.
Proof.
  induction deltas as [|t deltas IH]; [reflexivity|].
  cbn [map flat_map]. rewrite IH. unfold chunk_texts, text_event.
  cbn [type data delta content block_texts flat_map text app].
  destruct (decide (py "raw_response_event" = py "raw_response_event"));
    [reflexivity|congruence].
Qed.



(** ** The agent declarations *)

Lemma agent_names_distinct (a b : AgentRef) :
  name (agent a) = name (agent b) -> a = b.
Proof.
  destruct a, b; try reflexivity; intros Hname; vm_compute in Hname;
    discriminate Hname.
Qed.

(** X7.  The agent declarations are well formed: the fourteen agent names
    are pairwise distinct, so a handoff addressed by name names one agent;
    every agent a router can hand off to is a leaf without tools, handoffs,
    guardrails or output type; the Study Assistant is the only agent with an
    input guardrail, and the classifier that guardrail runs has none of its
    own, so evaluating the guardrail starts no further guardrail; every
    agent uses the one model of the configuration module. *)
Theorem agent_declarations_well_formed :
  (forall a b, name (agent a) = name (agent b) -> a = b)
  /\ (forall a b, handoff a b ->
        tools (agent b) = [] /\ handoffs (agent b) = []
        /\ input_guardrails (agent b) = [] /\ output_type (agent b) = None)
  /\ (forall a, input_guardrails (agent a) <> [] -> a = study_assistant)
  /\ input_guardrails (agent guardrail_classifier) = []
  /\ (forall a, model (agent a) = GroqSetup.MODEL).
Proof.
  split; [exact agent_names_distinct|]. split; [|split; [|split]].
  - intros a b Hab. unfold handoff in Hab.
    destruct a; cbn [agent plain handoffs In] in Hab;
      repeat (destruct Hab as [<-|Hab]; [repeat split|]); contradiction.
  - intros a Hg. destruct a; try reflexivity; now destruct Hg.
  - reflexivity.
  - intros a. destruct a; reflexivity.
Qed.

(** ** What the configuration module prints *)

(** X8.  Importing [groq_setup] never writes the API key: when the import
    raises, standard output is as before (the message travels in the
    exception only), and when it succeeds exactly one line is added, the
    same for every key.  In both cases the environment is the one
    [load_dotenv()] left. *)
Theorem import_groq_setup_prints_no_key (dotenv dotenv' : gmap str str -> gmap str str)
    (w : World) :
  let confirmation :=
    py "[groq_setup] ✅ Groq client configured | Model: llama-3.3-70b-versatile"
    ++ [0x0A%N] in
  environ (snd (import_groq_setup dotenv w)) = dotenv (environ w)
  /\ (forall e, fst (import_groq_setup dotenv w) = Raise e ->
        stdout (snd (import_groq_setup dotenv w)) = stdout w)
  /\ (forall ns, fst (import_groq_setup dotenv w) = Return ns ->
        stdout (snd (import_groq_setup dotenv w)) = stdout w ++ confirmation)
  /\ (forall ns ns',
        fst (import_groq_setup dotenv w) = Return ns ->
        fst (import_groq_setup dotenv' w) = Return ns' ->
        stdout (snd (import_groq_setup dotenv w))
        = stdout (snd (import_groq_setup dotenv' w))).
Proof.
  intros confirmation.
  assert (Hline : (py "[groq_setup] ✅ Groq client configured | Model: " ++ MODEL)
                  ++ [0x0A%N] = confirmation) by (vm_compute; reflexivity).
  assert (Hok : forall d ns,
             fst (import_groq_setup d w) = Return ns ->
             stdout (snd (import_groq_setup d w)) = stdout w ++ confirmation).
  { intros d ns. rewrite import_groq_setup_unfold.
    destruct (d (environ w) !! py "GROQ_API_KEY") as [[|c k]|];
      cbn [fst snd stdout]; try discriminate.
    intros _. now rewrite Hline. }
  split; [|split; [|split]].
  - rewrite import_groq_setup_unfold.
    destruct (dotenv (environ w) !! py "GROQ_API_KEY") as [[|c k]|]; reflexivity.
  - intros e. rewrite import_groq_setup_unfold.
    destruct (dotenv (environ w) !! py "GROQ_API_KEY") as [[|c k]|];
      cbn [fst snd stdout]; try discriminate; reflexivity.
  - apply Hok.
  - intros ns ns' H1 H2. rewrite (Hok _ _ H1), (Hok _ _ H2). reflexivity.
Qed.

Lemma import_groq_setup_prints_no_key_witness :
  stdout (snd (import_groq_setup
                 (fun env => env ∪ {[ py "GROQ_API_KEY" := py "gsk_first" ]}) world0))
  = stdout (snd (import_groq_setup
                   (fun env => env ∪ {[ py "GROQ_API_KEY" := py "gsk_second" ]}) world0)).
Proof.
  eapply (proj2 (proj2 (proj2 (import_groq_setup_prints_no_key _ _ world0))));
    vm_compute; reflexivity.
Defined.

(** ** The scripts and their imports *)

Import Scripts.

Lemma script_unfold (dotenv : gmap str str -> gmap str str) (names : list str)
    (body : Py unit) (w : World) :
  script dotenv names body w
  = match import_groq_setup dotenv w with
    | (Raise e, w1) => (Raise e, w1)
    | (Return _, w1) =>
      match unbound_name groq_setup_names names with
      | Some missing => (Return (ImportError missing), w1)
      | None =>
        match body w1 with
        | (Return _, w2) => (Return Finished, w2)
        | (Raise e, w2) => (Raise e, w2)
        end
      end
    end.
Proof.
  unfold script, bind.
  destruct (import_groq_setup dotenv w) as [[ns|e] w1]; [|reflexivity].
  destruct (unbound_name groq_setup_names names) as [missing|]; [reflexivity|].
  unfold ret. destruct (body w1) as [[[]|e] w2]; reflexivity.
Qed.

(** X9.  [groq_setup] binds no name [JSON_TOOL_INSTRUCTIONS].  The scripts
    [2_tools.py] and [4_structured_output.py] import it, so they never reach
    [main]: they end with the configuration error when the key is missing
    and with [ImportError] for that name otherwise, in the state the import
    of [groq_setup] left, whatever their [main] or the run would do.  A
    script that imports only [MODEL] runs its [main] once the configuration
    is imported. *)
Theorem scripts_missing_import `{PyRuntime} `{Pydantic}
    (dotenv : gmap str str -> gmap str str) (body : Py unit)
    (Runner_run : str -> Py str) (w : World) :
  let ended :=
    (match fst (import_groq_setup dotenv w) with
     | Return _ => Return (ImportError (py "JSON_TOOL_INSTRUCTIONS"))
     | Raise e => Raise e
     end,
     snd (import_groq_setup dotenv w)) in
  (py "JSON_TOOL_INSTRUCTIONS" ∉ groq_setup_names)
  /\ script_2_tools dotenv body w = ended
  /\ script_4_structured_output dotenv Runner_run w = ended
  /\ (forall ns w1,
        import_groq_setup dotenv w = (Return ns, w1) ->
        script_3_tools dotenv body w
        = match body w1 with
          | (Return _, w2) => (Return Finished, w2)
          | (Raise e, w2) => (Raise e, w2)
          end).
Proof.
  intros ended.
  assert (Hmissing : unbound_name groq_setup_names imports_MODEL_and_JSON_TOOL_INSTRUCTIONS
                     = Some (py "JSON_TOOL_INSTRUCTIONS")) by (vm_compute; reflexivity).
  assert (Hbound : unbound_name groq_setup_names imports_MODEL = None)
    by (vm_compute; reflexivity).
  split; [|split; [|split]].
  - apply (bool_decide_unpack _). vm_compute. exact I.
  - unfold script_2_tools, ended. rewrite script_unfold, Hmissing.
    destruct (import_groq_setup dotenv w) as [[ns|e] w1]; reflexivity.
  - unfold script_4_structured_output, ended. rewrite script_unfold, Hmissing.
    destruct (import_groq_setup dotenv w) as [[ns|e] w1]; reflexivity.
  - intros ns w1 Himp. unfold script_3_tools.
    rewrite script_unfold, Himp, Hbound. reflexivity.
Qed.

Lemma scripts_missing_import_witness :
  exists w1,
    @script_4_structured_output ascii_runtime strict_pydantic
      (fun env => env ∪ {[ py "GROQ_API_KEY" := py "gsk_demo" ]})
      (fun _ => ret inception_output) world0
    = (Return (ImportError (py "JSON_TOOL_INSTRUCTIONS")), w1).
Proof.
  eexists.
  rewrite (proj1 (proj2 (proj2
             (@scripts_missing_import ascii_runtime strict_pydantic
                (fun env => env ∪ {[ py "GROQ_API_KEY" := py "gsk_demo" ]})
                (ret tt) (fun _ => ret inception_output) world0)))).
  vm_compute. reflexivity.
Defined.

(** ** The weather table *)

(** X10.  No entry of the weather table is dead: every key is already in the
    normal form the lookup computes (lower case, no surrounding white
    space), so asking for a key of the table returns its report.
    Conversely, whatever the city, the answer is a report of the table or
    the "not available" sentence for that city. *)
Theorem weather_table_reachable `{PyRuntime} (city : str) (w : World) :
  (forall key report, (key, report) ∈ weather_reports ->
     strip (lower unicode_lower key) = key
     /\ get_weather key w = (Return report, w))
  /\ (exists answer,
        get_weather city w = (Return answer, w)
        /\ ((exists key, (key, answer) ∈ weather_reports)
            \/ answer = py "Weather data for '" ++ city ++ py "' not available.")).
Proof.
  split.
  - intros key report Hin.
    assert (Hkey : strip (lower unicode_lower key) = key).
    { apply list_elem_of_In in Hin. unfold weather_reports in Hin. cbn [In] in Hin.
      repeat (destruct Hin as [[= <- _]|Hin]; [vm_compute; reflexivity|]).
      contradiction. }
    split; [exact Hkey|]. unfold get_weather, ret. rewrite Hkey.
    rewrite (fake_weather_data_Some _ _ Hin). reflexivity.
  - unfold get_weather, ret.
    destruct (fake_weather_data !! strip (lower unicode_lower city)) as [r|] eqn:Hr.
    + exists r. split; [reflexivity|]. left.
      exists (strip (lower unicode_lower city)).
      apply elem_of_list_to_map_2. exact Hr.
    + eexists. split; [reflexivity|]. right. reflexivity.
Qed.
